(** * ResumeGrader: the upload form component

    A shallow embedding of the three captured revisions of the React
    component [App] of tosoham/ResumeGrader

      - [src/src/App.jsx]       (module [AppJsx])
      - [src/unnamed/part_000]  (module [Part000])
      - [src/unnamed/part_001]  (module [Part001])

    together with the fragment of the JavaScript, DOM and React semantics
    that the component relies on: truthiness, property reads, optional
    chaining, [&&] and [||], string conversion, [FormData.append], and the
    element tree a JSX expression evaluates to. *)

From Stdlib Require Import ZArith List String Ascii Bool Lia.
From Stdlib Require Import DecimalString.
Import ListNotations.

#[local] Open Scope string_scope.
#[local] Open Scope Z_scope.

(* ===================================================================== *)
(** ** JavaScript values *)
(* ===================================================================== *)

(** The data a response body, or a rejection reason, can hold.  Numbers are
    the integral ones ([VNum n] is the double whose value is [n], exact for
    every [n] up to 2^53 in magnitude); an object is the ordered list of
    its own properties, each key occurring once. *)
#[local] Set Warnings "-register-all".

Inductive value : Type :=
| VUndefined
| VNull
| VBool (b : bool)
| VNum (n : Z)
| VStr (s : string)
| VArr (items : list value)
| VObj (fields : list (string * value)).

(** What an evaluation can throw: the two native errors the component can
    run into, and the reason a promise was rejected with. *)
Inductive thrown : Type :=
| TypeError (msg : string)
| ReferenceError (msg : string)
| Rejection (reason : value).

(** Outcome of evaluating an expression.  [OutOfModel] marks the few
    conversions that need floating point parsing or printing. *)
Inductive result (A : Type) : Type :=
| Returns (a : A)
| Throws (t : thrown)
| OutOfModel.

Arguments Returns {A} a.
Arguments Throws {A} t.
Arguments OutOfModel {A}.

Definition bind {A B : Type} (r : result A) (k : A -> result B) : result B :=
  match r with
  | Returns a => k a
  | Throws t => Throws t
  | OutOfModel => OutOfModel
  end.

Declare Scope js_scope.
Delimit Scope js_scope with js.
Notation "'let*' x ':=' r 'in' k" := (bind r (fun x => k))
  (at level 10, x name, r at level 100, k at level 200) : js_scope.
#[local] Open Scope js_scope.

(** ToBoolean. *)
Definition truthy (v : value) : bool :=
  match v with
  | VUndefined | VNull => false
  | VBool b => b
  | VNum n => negb (n =? 0)
  | VStr s => negb (s =? "")%string
  | VArr _ | VObj _ => true
  end.

Definition nullish (v : value) : bool :=
  match v with
  | VUndefined | VNull => true
  | _ => false
  end.

Fixpoint own_property (k : string) (fields : list (string * value)) : option value :=
  match fields with
  | [] => None
  | (k', v) :: rest => if (k =? k')%string then Some v else own_property k rest
  end.

Definition has_own (k : string) (fields : list (string * value)) : bool :=
  match own_property k fields with Some _ => true | None => false end.

(** Number::toString for an integral double.  Up to 2^53 in magnitude
    consecutive integers are distinct doubles, so the shortest digits that
    read back as the number are its own decimal digits; beyond, the digits
    are those of the nearest double, cut short and padded with zeros (not
    modelled). *)
Definition number_to_string (n : Z) : result string :=
  if Z.abs n <=? 2 ^ 53
  then Returns (NilZero.string_of_int (Z.to_int n))
  else OutOfModel.

(** [Array.prototype.join] over an element conversion [conv]: [undefined]
    and [null] elements give the empty string. *)
Definition join_with (conv : value -> result string) (sep : string)
  : list value -> result string :=
  fix go (l : list value) : result string :=
    match l with
    | [] => Returns ""%string
    | x :: rest =>
        let* s := (if nullish x then Returns ""%string else conv x) in
        match rest with
        | [] => Returns s
        | _ :: _ => let* r := go rest in Returns (s ++ sep ++ r)%string
        end
    end.

(** ToString.  An array prints as its elements joined by a comma; an object
    reaches [Object.prototype.toString] unless an own (hence not callable)
    ["toString"] property shadows it, in which case ToPrimitive throws. *)
Fixpoint to_string (v : value) : result string :=
  match v with
  | VUndefined => Returns "undefined"%string
  | VNull => Returns "null"%string
  | VBool true => Returns "true"%string
  | VBool false => Returns "false"%string
  | VNum n => number_to_string n
  | VStr s => Returns s
  | VArr items => join_with to_string "," items
  | VObj fields =>
      if has_own "toString" fields
      then Throws (TypeError "Cannot convert object to primitive value")
      else Returns "[object Object]"%string
  end.

Definition cannot_read (v : value) (k : string) : thrown :=
  TypeError ("Cannot read properties of "
             ++ (match v with VNull => "null" | _ => "undefined" end)
             ++ " (reading '" ++ k ++ "')").

(** [v.k] for a data property [k].  Of the inherited properties only
    [length] is modelled (the methods [map] and [join] are [array_map] and
    [array_join] below); the component reads no other inherited name. *)
Definition get (v : value) (k : string) : result value :=
  match v with
  | VUndefined | VNull => Throws (cannot_read v k)
  | VBool _ | VNum _ => Returns VUndefined
  | VStr s =>
      if (k =? "length")%string
      then Returns (VNum (Z.of_nat (String.length s)))
      else Returns VUndefined
  | VArr items =>
      if (k =? "length")%string
      then Returns (VNum (Z.of_nat (List.length items)))
      else Returns VUndefined
  | VObj fields =>
      match own_property k fields with
      | Some x => Returns x
      | None => Returns VUndefined
      end
  end.

(** [v?.k] *)
Definition opt_get (v : value) (k : string) : result value :=
  if nullish v then Returns VUndefined else get v k.

(** [v.k1.k2. ... .kn] *)
Fixpoint path (v : value) (ks : list string) : result value :=
  match ks with
  | [] => Returns v
  | k :: rest => let* x := get v k in path x rest
  end.

(** [v > 0].  A string operand goes through StringToNumber and an array
    through its string form; both are left out of the model. *)
Definition gt_zero (v : value) : result bool :=
  match v with
  | VNum n => Returns (0 <? n)
  | VUndefined => Returns false
  | VNull => Returns false
  | VBool b => Returns b
  | VObj fields =>
      if has_own "toString" fields
      then Throws (TypeError "Cannot convert object to primitive value")
      else Returns false
  | VStr _ | VArr _ => OutOfModel
  end.

(** [a || b] on values, [b] evaluated only when needed. *)
Definition or_else (a : value) (b : result value) : result value :=
  if truthy a then Returns a else b.

(** [x = v] in strict mode code, which the code of an ES module always
    is: without a binding for [x] the assignment throws instead of creating
    a global. *)
Definition put_value {A : Type} (resolvable : bool) (x : string) (v : A) : result A :=
  if resolvable then Returns v else Throws (ReferenceError (x ++ " is not defined")).

Definition not_a_function (what : string) : thrown :=
  TypeError (what ++ " is not a function").

(** [v.join(sep)]: the array method; on anything else of the model the
    property is [undefined] or plain data, and the call throws. *)
Definition array_join (what : string) (v : value) (sep : string) : result value :=
  match v with
  | VArr items => let* s := join_with to_string sep items in Returns (VStr s)
  | VUndefined | VNull => Throws (cannot_read v "join")
  | _ => Throws (not_a_function what)
  end.

(* ===================================================================== *)
(** ** Files, form data and the HTTP client *)
(* ===================================================================== *)

Record File : Type := mkFile {
  file_name : string;
  file_type : string;
  file_bytes : list Byte.byte
}.

(** [e.target.files] of a file input. *)
Definition FileList : Type := list File.

(** What the state cell [files] can hold: its initial [null], a [File]
    (or [undefined], from indexing an empty [FileList]), or a whole
    [FileList]. *)
Inductive selection : Type :=
| SelNull
| SelUndefined
| SelFile (f : File)
| SelFileList (fl : FileList).

Definition sel_truthy (s : selection) : bool :=
  match s with
  | SelNull | SelUndefined => false
  | SelFile _ | SelFileList _ => true
  end.

(** [fl[0]] *)
Definition first_file (fl : FileList) : selection :=
  match fl with
  | [] => SelUndefined
  | f :: _ => SelFile f
  end.

(** An entry of a [FormData]: a file part, or a string field. *)
Inductive entry_value : Type :=
| EFile (f : File)
| EString (s : string).

Definition FormData : Type := list (string * entry_value).

Definition new_FormData : FormData := [].

(** [FormData.append(name, v)]: a [File] is kept as a file part; any other
    value is converted to a string. *)
Definition entry_of (v : selection) : entry_value :=
  match v with
  | SelFile f => EFile f
  | SelNull => EString "null"
  | SelUndefined => EString "undefined"
  | SelFileList _ => EString "[object FileList]"
  end.

Definition append (fd : FormData) (name : string) (v : selection) : FormData :=
  (fd ++ [(name, entry_of v)])%list.

Definition is_file_part (e : string * entry_value) : bool :=
  match snd e with
  | EFile _ => true
  | EString _ => false
  end.

Definition file_parts (fd : FormData) : list (string * entry_value) :=
  filter is_file_part fd.

Record Request : Type := mkRequest {
  req_method : string;
  req_url : string;
  req_body : FormData
}.

(** The object [axios.post] resolves with. *)
Record AxiosResponse : Type := mkResponse {
  status : Z;
  data : value
}.

(** How the promise of the HTTP call settles. *)
Inductive settled : Type :=
| Fulfilled (res : AxiosResponse)
| Rejected (reason : value).

(* ===================================================================== *)
(** ** Component state and the handler monad *)
(* ===================================================================== *)

(** The three [useState] cells. *)
Record State : Type := mkState {
  files : selection;
  response : value;
  loading : bool
}.

Definition initial_state : State :=
  {| files := SelNull; response := VNull; loading := false |}.

(** The state together with what a handler leaves behind outside of it:
    the HTTP requests issued and the lines written to the console. *)
Record World : Type := mkWorld {
  st : State;
  requests : list Request;
  console_errors : list (list value)
}.

Definition world_of (s : State) : World :=
  {| st := s; requests := []; console_errors := [] |}.

(** Completion of a handler: normal, or abrupt with what was thrown (for an
    [async] function: the promise it returned is rejected with it). *)
Inductive completion (A : Type) : Type :=
| Normal (a : A) (w : World)
| Abrupt (t : thrown) (w : World).

Arguments Normal {A} a w.
Arguments Abrupt {A} t w.

Definition M (A : Type) : Type := World -> completion A.

Definition ret {A : Type} (a : A) : M A := fun w => Normal a w.

Definition throw {A : Type} (t : thrown) : M A := fun w => Abrupt t w.

Definition bindM {A B : Type} (m : M A) (k : A -> M B) : M B :=
  fun w =>
    match m w with
    | Normal a w' => k a w'
    | Abrupt t w' => Abrupt t w'
    end.

Definition try_catch {A : Type} (body : M A) (handler : thrown -> M A) : M A :=
  fun w =>
    match body w with
    | Normal a w' => Normal a w'
    | Abrupt t w' => handler t w'
    end.

Declare Scope handler_scope.
Delimit Scope handler_scope with handler.
Notation "x <- m ;; k" := (bindM m (fun x => k))
  (at level 61, m at next level, right associativity) : handler_scope.
Notation "m ;; k" := (bindM m (fun _ => k))
  (at level 61, right associativity) : handler_scope.

Definition setFiles (s : selection) : M unit :=
  fun w =>
    Normal tt {| st := {| files := s; response := response (st w); loading := loading (st w) |};
                 requests := requests w; console_errors := console_errors w |}.

Definition setResponse (v : value) : M unit :=
  fun w =>
    Normal tt {| st := {| files := files (st w); response := v; loading := loading (st w) |};
                 requests := requests w; console_errors := console_errors w |}.

Definition setLoading (b : bool) : M unit :=
  fun w =>
    Normal tt {| st := {| files := files (st w); response := response (st w); loading := b |};
                 requests := requests w; console_errors := console_errors w |}.

Definition read_files : M selection := fun w => Normal (files (st w)) w.

(** [console.error(...args)] *)
Definition console_error (args : list value) : M unit :=
  fun w =>
    Normal tt {| st := st w; requests := requests w;
                 console_errors := (console_errors w ++ [args])%list |}.

(** [await axios.post(url, formData)]: the request goes out, and the
    [await] resumes with the response or throws the rejection reason. *)
Definition axios_post (net : settled) (url : string) (fd : FormData) : M AxiosResponse :=
  fun w =>
    let w' := {| st := st w;
                 requests := (requests w ++ [mkRequest "POST" url fd])%list;
                 console_errors := console_errors w |} in
    match net with
    | Fulfilled res => Normal res w'
    | Rejected reason => Abrupt (Rejection reason) w'
    end.

(** The value a [catch (x)] clause binds [x] to. *)
Definition caught_value (t : thrown) : value :=
  match t with
  | Rejection reason => reason
  | TypeError msg => VObj [("name", VStr "TypeError"); ("message", VStr msg)]
  | ReferenceError msg => VObj [("name", VStr "ReferenceError"); ("message", VStr msg)]
  end.

(** Reading the identifier [x] where the only binding in scope that the
    component's own declarations do not provide is a [catch] parameter. *)
Definition read_var (scope : list (string * value)) (x : string) : M value :=
  match own_property x scope with
  | Some v => ret v
  | None => throw (ReferenceError (x ++ " is not defined"))
  end.

(* ===================================================================== *)
(** ** React element trees *)
(* ===================================================================== *)

Inductive handler : Type :=
| HandleFileChange
| HandleUpload.

Inductive attr : Type :=
| AVal (v : value)
| AHandler (h : handler).

Inductive tag : Type :=
| Host (name : string)
| Component (name : string)
| Fragment.

(** What a JSX expression evaluates to: an element, or, in child position,
    a plain value ([false], [null], a number, a string, ...) or the array
    produced by a [map]. *)
Inductive node : Type :=
| NVal (v : value)
| NElem (t : tag) (attrs : list (string * attr)) (children : list node)
| NArr (items : list node).

(** Children are evaluated left to right; the first one that does not
    return decides. *)
Fixpoint sequence {A : Type} (l : list (result A)) : result (list A) :=
  match l with
  | [] => Returns []
  | r :: rest =>
      let* a := r in
      let* others := sequence rest in
      Returns (a :: others)
  end.

Definition el (t : tag) (attrs : list (string * attr)) (kids : list (result node))
  : result node :=
  let* children := sequence kids in
  Returns (NElem t attrs children).

Definition txt (s : string) : result node := Returns (NVal (VStr s)).

Definition val (r : result value) : result node :=
  let* v := r in Returns (NVal v).

Definition str (s : string) : attr := AVal (VStr s).

(** [c && k] in child position. *)
Definition and_then (c : value) (k : result node) : result node :=
  if truthy c then k else Returns (NVal c).

(** [x && x.length > 0 && body], the second operand reading [x] again. *)
Definition guard_nonempty (x len_of_x : result value) (body : result node)
  : result node :=
  let* a := x in
  and_then a
    (let* n := len_of_x in
     let* positive := gt_zero n in
     and_then (VBool positive) body).

Fixpoint map_indexed (f : value -> Z -> result node) (i : Z) (l : list value)
  : result (list node) :=
  match l with
  | [] => Returns []
  | x :: rest =>
      let* n := f x i in
      let* others := map_indexed f (i + 1) rest in
      Returns (n :: others)
  end.

(** [v.map((x, i) => ...)] *)
Definition array_map (what : string) (v : value) (f : value -> Z -> result node)
  : result node :=
  match v with
  | VArr items => let* ns := map_indexed f 0 items in Returns (NArr ns)
  | VUndefined | VNull => Throws (cannot_read v "map")
  | _ => Throws (not_a_function what)
  end.

(** Elements of a tree with a given host tag, in document order. *)
Fixpoint elements_by_tag (name : string) (n : node) : list node :=
  match n with
  | NVal _ => []
  | NElem t attrs children =>
      let inner := flat_map (elements_by_tag name) children in
      match t with
      | Host name' => if (name =? name')%string then n :: inner else inner
      | _ => inner
      end
  | NArr items => flat_map (elements_by_tag name) items
  end.

Fixpoint attribute (k : string) (attrs : list (string * attr)) : option attr :=
  match attrs with
  | [] => None
  | (k', a) :: rest => if (k =? k')%string then Some a else attribute k rest
  end.

(** A host element is disabled when its [disabled] attribute is truthy. *)
Definition is_disabled (n : node) : bool :=
  match n with
  | NElem _ attrs _ =>
      match attribute "disabled" attrs with
      | Some (AVal v) => truthy v
      | _ => false
      end
  | _ => false
  end.

(** The submit control of a rendered tree and whether it is disabled. *)
Definition submit_disabled (tree : node) : option bool :=
  match elements_by_tag "button" tree with
  | [b] => Some (is_disabled b)
  | _ => None
  end.

(** React mounts strings and numbers as text, skips booleans, [null] and
    [undefined], walks arrays, and refuses a plain object in child
    position. *)
Fixpoint value_mountable (v : value) : bool :=
  match v with
  | VObj _ => false
  | VArr items => forallb value_mountable items
  | _ => true
  end.

Fixpoint mountable (n : node) : bool :=
  match n with
  | NVal v => value_mountable v
  | NElem _ _ children => forallb mountable children
  | NArr items => forallb mountable items
  end.

(* ===================================================================== *)
(** ** Revision [src/src/App.jsx] *)
(* ===================================================================== *)

Module AppJsx.

(** [onChange={(e)=>{setFiles(e.target.files)}}] *)
Definition onChange (target_files : FileList) : M unit :=
  setFiles (SelFileList target_files).

Definition handleUpload (net : settled) : M unit :=
  (files <- read_files ;;
   let formData := append new_FormData "resume" files in
   setLoading true ;;
   try_catch
     (res <- axios_post net "http://localhost:3000/uploads" formData ;;
      setLoading false ;;
      setResponse (data res))
     (fun e =>
        err <- read_var [("e", caught_value e)] "err" ;;
        setResponse err))%handler.

(** [{response && ( <div> ... </div> )}] *)
Definition result_panel (response : value) : result node :=
  and_then response
    (el (Host "div") [] [
       el (Host "h2") [] [txt "Score: "; val (get response "score"); txt "/100"];
       el (Host "ul") [] [
         let* tips := get response "tips" in
         array_map "response.tips.map" tips
           (fun tip i => el (Host "li") [("key", AVal (VNum i))] [val (Returns tip)]) ] ]).

Definition App (s : State) : result node :=
  el Fragment [] [
    el (Host "div") [("className", str "App")] [
      el (Host "h1") [] [txt "Automated Resume Grader"] ];
    el (Host "div") [] [
      el (Host "input")
         [("type", str "file"); ("accept", str ".pdf");
          ("onChange", AHandler HandleFileChange);
          ("placeholder", str "choose your Resume")] [] ];
    el (Host "div") [] [
      el (Host "button") [("onClick", AHandler HandleUpload)] [txt "Upload"] ];
    and_then (VBool (loading s)) (el (Component "Spinner") [] []);
    el (Host "div") [] [ result_panel (response s) ] ].

End AppJsx.

(* ===================================================================== *)
(** ** Revision [src/unnamed/part_000] *)
(* ===================================================================== *)

Module Part000.

(** [onChange={(e)=>{setFiles(e.target.files[0])}}] *)
Definition onChange (target_files : FileList) : M unit :=
  setFiles (first_file target_files).

Definition handleUpload (net : settled) : M unit :=
  (files <- read_files ;;
   let formData := append new_FormData "file" files in
   setLoading true ;;
   try_catch
     (res <- axios_post net "http://localhost:8000/upload-resume" formData ;;
      setLoading false ;;
      setResponse (data res))
     (fun e =>
        err <- read_var [("err", caught_value e)] "err" ;;
        setResponse err))%handler.

(** [{response && ( <div> <ul> ... </ul> </div> )}]; the commented-out
    [h2] contributes no child. *)
Definition result_panel (response : value) : result node :=
  and_then response
    (el (Host "div") [] [
       el (Host "ul") [] [
         val (path response ["parsed_data"; "personal_info"; "name"]) ] ]).

Definition App (s : State) : result node :=
  el Fragment [] [
    el (Host "div") [("className", str "App")] [
      el (Host "h1") [] [txt "Automated Resume Grader"] ];
    el (Host "div") [] [
      el (Host "input")
         [("type", str "file"); ("accept", str ".pdf");
          ("onChange", AHandler HandleFileChange);
          ("placeholder", str "choose your Resume")] [] ];
    el (Host "div") [] [
      el (Host "button") [("onClick", AHandler HandleUpload)] [txt "Upload"] ];
    and_then (VBool (loading s)) (el (Component "Spinner") [] []);
    el (Host "div") [] [ result_panel (response s) ] ].

End Part000.

(* ===================================================================== *)
(** ** Revision [src/unnamed/part_001] *)
(* ===================================================================== *)

Module Part001.

(** The identifiers the module binds: its three imports and [App].  The
    browser's global object has no property called [url] either. *)
Definition declared (x : string) : bool :=
  existsb (String.eqb x) ["useState"; "Spinner"; "axios"; "App"].

(** The right-hand side of line 6,
    [`${import.meta.env.VITE_API_URL}` || `http://localhost:8000`],
    as a function of the object [import.meta.env]. *)
Definition url_initializer (import_meta_env : value) : result string :=
  let* v := get import_meta_env "VITE_API_URL" in
  let* s := to_string v in
  Returns (if truthy (VStr s) then s else "http://localhost:8000").

(** Line 6 itself, [url = ...], run when the module is loaded: the
    right-hand side is evaluated, then assigned to [url], for which the
    module has no [const], [let] or [var]. *)
Definition url (import_meta_env : value) : result string :=
  let* v := url_initializer import_meta_env in
  put_value (declared "url") "url" v.

Definition onChange (target_files : FileList) : M unit :=
  setFiles (first_file target_files).

Definition handleUpload (url : string) (net : settled) : M unit :=
  (files <- read_files ;;
   let formData := append new_FormData "file" files in
   setLoading true ;;
   try_catch
     (res <- axios_post net (url ++ "/grade-resume") formData ;;
      setLoading false ;;
      setResponse (data res))
     (fun e =>
        err <- read_var [("err", caught_value e)] "err" ;;
        setLoading false ;;
        setResponse VNull ;;
        console_error [VStr "Upload failed:"; err]))%handler.

(** [response.grading_result.section_scores?.NAME || 'N/A'] *)
Definition section_score (response : value) (name : string) : result node :=
  val (let* gr := get response "grading_result" in
       let* scores := get gr "section_scores" in
       let* score := opt_get scores name in
       or_else score (Returns (VStr "N/A"))).

Definition li_items (what : string) (arr : value) : result node :=
  array_map what arr
    (fun x i => el (Host "li") [("key", AVal (VNum i))] [val (Returns x)]).

Definition overall (response : value) : result node :=
  el (Host "h2") [] [
    txt "Your Overall Score is"; txt " ";
    val (path response ["grading_result"; "overall_score"]);
    txt " out of 100 and your section scores are: personal info"; txt " ";
    section_score response "personal_info"; txt " ";
    txt ", experience"; txt " ";
    section_score response "experience"; txt " ";
    txt ", education"; txt " ";
    section_score response "education"; txt " ";
    txt ", skills"; txt " ";
    section_score response "skills";
    txt ", projects"; txt " ";
    section_score response "projects" ].

Definition personal_information (response : value) : result node :=
  let info (k : string) := path response ["parsed_data"; "personal_info"; k] in
  let* parsed := get response "parsed_data" in
  let* present := opt_get parsed "personal_info" in
  and_then present
    (el (Host "div") [] [
       el (Host "h3") [] [txt "Personal Information"];
       el (Host "p") [] [txt "Name: "; val (info "name")];
       el (Host "p") [] [txt "Email: "; val (info "email")];
       el (Host "p") [] [txt "Phone: "; val (info "phone")];
       (let* a := info "address" in
        and_then a (el (Host "p") [] [txt "Address: "; val (info "address")]));
       (let* a := info "linkedin" in
        and_then a (el (Host "p") [] [txt "LinkedIn: "; val (info "linkedin")]));
       (let* a := info "github" in
        and_then a (el (Host "p") [] [txt "GitHub: "; val (info "github")])) ]).

Definition education_entry (edu : value) (index : Z) : result node :=
  el (Host "div") [("key", AVal (VNum index))] [
    el (Host "h4") [] [val (get edu "institution")];
    el (Host "p") [] [val (get edu "degree"); txt " in "; val (get edu "field_of_study")];
    el (Host "p") [] [val (get edu "year")];
    (let* g := get edu "gpa" in
     and_then g (el (Host "p") [] [txt "GPA: "; val (get edu "gpa")])) ].

Definition education (response : value) : result node :=
  guard_nonempty
    (let* parsed := get response "parsed_data" in opt_get parsed "education")
    (path response ["parsed_data"; "education"; "length"])
    (el (Host "div") [] [
       el (Host "h3") [] [txt "Education"];
       (let* arr := path response ["parsed_data"; "education"] in
        array_map "response.parsed_data.education.map" arr education_entry) ]).

Definition experience_entry (exp : value) (index : Z) : result node :=
  el (Host "div") [("key", AVal (VNum index))] [
    el (Host "h4") [] [val (get exp "position"); txt " at "; val (get exp "company")];
    el (Host "p") [] [val (get exp "duration")];
    el (Host "p") [] [val (get exp "description")];
    guard_nonempty
      (get exp "key_achievements")
      (path exp ["key_achievements"; "length"])
      (el (Host "div") [] [
         el (Host "strong") [] [txt "Key Achievements:"];
         el (Host "ul") [] [
           let* arr := get exp "key_achievements" in
           li_items "exp.key_achievements.map" arr ] ]) ].

Definition experience (response : value) : result node :=
  guard_nonempty
    (let* parsed := get response "parsed_data" in opt_get parsed "experience")
    (path response ["parsed_data"; "experience"; "length"])
    (el (Host "div") [] [
       el (Host "h3") [] [txt "Experience"];
       (let* arr := path response ["parsed_data"; "experience"] in
        array_map "response.parsed_data.experience.map" arr experience_entry) ]).

Definition skills (response : value) : result node :=
  guard_nonempty
    (let* parsed := get response "parsed_data" in opt_get parsed "skills")
    (path response ["parsed_data"; "skills"; "length"])
    (el (Host "div") [] [
       el (Host "h3") [] [txt "Skills"];
       el (Host "ul") [] [
         let* arr := path response ["parsed_data"; "skills"] in
         li_items "response.parsed_data.skills.map" arr ] ]).

Definition project_entry (proj : value) (index : Z) : result node :=
  el (Host "div") [("key", AVal (VNum index))] [
    el (Host "h4") [] [val (get proj "name")];
    el (Host "p") [] [val (get proj "description")];
    guard_nonempty
      (get proj "technologies")
      (path proj ["technologies"; "length"])
      (el (Host "p") [] [
         el (Host "strong") [] [txt "Technologies:"]; txt " ";
         val (let* arr := get proj "technologies" in
              array_join "proj.technologies.join" arr ", ") ]);
    (let* d := get proj "duration" in
     and_then d
       (el (Host "p") [] [
          el (Host "strong") [] [txt "Duration:"]; txt " "; val (get proj "duration") ]));
    (let* u := get proj "url" in
     and_then u
       (let* href := get proj "url" in
        el (Host "a")
           [("href", AVal href); ("target", str "_blank");
            ("rel", str "noopener noreferrer")]
           [txt "Project Link"])) ].

Definition projects (response : value) : result node :=
  guard_nonempty
    (let* parsed := get response "parsed_data" in opt_get parsed "projects")
    (path response ["parsed_data"; "projects"; "length"])
    (el (Host "div") [] [
       el (Host "h3") [] [txt "Projects"];
       (let* arr := path response ["parsed_data"; "projects"] in
        array_map "response.parsed_data.projects.map" arr project_entry) ]).

Definition strengths (response : value) : result node :=
  guard_nonempty
    (path response ["grading_result"; "strengths"])
    (path response ["grading_result"; "strengths"; "length"])
    (el (Host "div") [] [
       el (Host "h3") [] [txt "Strengths"];
       el (Host "ul") [] [
         let* arr := path response ["grading_result"; "strengths"] in
         li_items "response.grading_result.strengths.map" arr ] ]).

Definition tips (response : value) : result node :=
  guard_nonempty
    (path response ["grading_result"; "tips"])
    (path response ["grading_result"; "tips"; "length"])
    (el (Host "div") [] [
       el (Host "h3") [] [txt "Resume Improvement Tips"];
       el (Host "ul") [] [
         let* arr := path response ["grading_result"; "tips"] in
         li_items "response.grading_result.tips.map" arr ] ]).

Definition detailed_feedback (response : value) : result node :=
  let* fb := path response ["grading_result"; "detailed_feedback"] in
  and_then fb
    (el (Host "div") [] [
       el (Host "h3") [] [txt "Detailed Feedback"];
       el (Host "p") [] [val (path response ["grading_result"; "detailed_feedback"])] ]).

(** [{response && response.grading_result && ( <div> ... </div> )}] *)
Definition result_panel (response : value) : result node :=
  and_then response
    (let* grading := get response "grading_result" in
     and_then grading
       (el (Host "div") [] [
          overall response;
          el (Host "br") [] [];
          personal_information response;
          education response;
          experience response;
          skills response;
          projects response;
          strengths response;
          tips response;
          detailed_feedback response ])).

Definition App (s : State) : result node :=
  el Fragment [] [
    el (Host "div") [("className", str "App")] [
      el (Host "h1") [] [txt "Automated Resume Grader"] ];
    el (Host "div") [] [
      el (Host "input")
         [("type", str "file"); ("accept", str ".pdf");
          ("onChange", AHandler HandleFileChange);
          ("placeholder", str "choose your Resume")] [] ];
    el (Host "div") [] [
      el (Host "button")
         [("onClick", AHandler HandleUpload);
          ("disabled", AVal (VBool (negb (sel_truthy (files s)) || loading s)))]
         [txt "Upload"] ];
    and_then (VBool (loading s)) (el (Component "Spinner") [] []);
    el (Host "div") [] [ result_panel (response s) ] ].

End Part001.

(* ===================================================================== *)
(** ** The three revisions side by side *)
(* ===================================================================== *)

Inductive revision : Type :=
| App_jsx
| part_000
| part_001.

(** [selectFile] of the specification: the [onChange] handler. *)
Definition selectFile (r : revision) : FileList -> M unit :=
  match r with
  | App_jsx => AppJsx.onChange
  | part_000 => Part000.onChange
  | part_001 => Part001.onChange
  end.

(** [submit] of the specification: [handleUpload].  Only [part_001] reads
    the module-level [url]. *)
Definition submit (r : revision) (url : string) : settled -> M unit :=
  match r with
  | App_jsx => AppJsx.handleUpload
  | part_000 => Part000.handleUpload
  | part_001 => Part001.handleUpload url
  end.

Definition render (r : revision) : State -> result node :=
  match r with
  | App_jsx => AppJsx.App
  | part_000 => Part000.App
  | part_001 => Part001.App
  end.

(** The world a handler leaves behind, however it completes. *)
Definition world_after {A : Type} (c : completion A) : World :=
  match c with
  | Normal _ w => w
  | Abrupt _ w => w
  end.

(** Selecting files and then submitting, from a fresh component. *)
Definition select_then_submit
  (r : revision) (picked : FileList) (url : string) (net : settled) : World :=
  world_after ((selectFile r picked ;; submit r url net)%handler (world_of initial_state)).

(** Whatever [r] returns holds no host element called [name]. *)
Definition tag_free (name : string) (r : result node) : Prop :=
  forall n, r = Returns n -> elements_by_tag name n = [].

Definition other_tag (name : string) (t : tag) : bool :=
  match t with
  | Host name' => negb (name =? name')%string
  | _ => true
  end.

(* ===================================================================== *)
(** ** Sample inputs *)
(* ===================================================================== *)

(** The response [{grading_result: {overall_score: 72}}]. *)
Definition only_overall_score : value :=
  VObj [("grading_result", VObj [("overall_score", VNum 72)])].

(** A grading result whose five section scores are all 0. *)
Definition all_zero_scores : value :=
  VObj [("grading_result",
         VObj [("overall_score", VNum 0);
               ("section_scores",
                VObj [("personal_info", VNum 0); ("experience", VNum 0);
                      ("education", VNum 0); ("skills", VNum 0);
                      ("projects", VNum 0)])])].

(** A rejection as axios reports a network failure. *)
Definition network_error : value :=
  VObj [("message", VStr "Network Error"); ("name", VStr "AxiosError");
        ("code", VStr "ERR_NETWORK")].

Definition resume_pdf : File :=
  {| file_name := "resume.pdf"; file_type := "application/pdf"; file_bytes := [] |}.

(** [import.meta.env] as Vite provides it when no [.env] file sets
    anything. *)
Definition vite_builtin_env : list (string * value) :=
  [("BASE_URL", VStr "/"); ("MODE", VStr "development");
   ("DEV", VBool true); ("PROD", VBool false); ("SSR", VBool false)].

(** The result panel of each revision. *)
Definition panel_of (r : revision) : value -> result node :=
  match r with
  | App_jsx => AppJsx.result_panel
  | part_000 => Part000.result_panel
  | part_001 => Part001.result_panel
  end.

(** A list field under which [part_001] renders no section: a falsy value
    (the field is missing, [null], ...) or the empty array. *)
Definition no_items (v : value) : bool :=
  match v with
  | VArr [] => true
  | _ => negb (truthy v)
  end.

(** The evaluation goes through: it neither throws nor leaves the model. *)
Definition returns {A : Type} (r : result A) : Prop :=
  exists a, r = Returns a.

(** The array of [<li key={i}>{item}</li>] a list of items is mapped to:
    the item at index [i] sits in the [li] whose key is [i]. *)
Definition item_list (items : list value) : node :=
  NArr (map (fun entry : nat * value =>
               NElem (Host "li") [("key", AVal (VNum (Z.of_nat (fst entry))))]
                     [NVal (snd entry)])
            (combine (seq 0 (List.length items)) items)).

(** What reading [k] from an object with the own properties [fields]
    gives: the property, or [undefined]. *)
Definition field (fields : list (string * value)) (k : string) : value :=
  match own_property k fields with
  | Some x => x
  | None => VUndefined
  end.

(** Every value a property read on [v] can give is one React can show:
    no own property of an object is a plain object, or an array holding
    one.  (Reads on anything but an object give a number or [undefined].) *)
Definition properties_mountable (v : value) : bool :=
  match v with
  | VObj fields => forallb (fun entry => value_mountable (snd entry)) fields
  | _ => true
  end.

(** [p] holds of what the read returns, if it returns. *)
Definition read_satisfies (r : result value) (p : value -> bool) : bool :=
  match r with
  | Returns x => p x
  | _ => true
  end.

(** The values the score heading, the personal information block and the
    detailed feedback block of [part_001] put in child position are ones
    React can show. *)
Definition fixed_values_mountable (response : value) : bool :=
  read_satisfies (path response ["grading_result"; "overall_score"]) value_mountable
  && read_satisfies (path response ["grading_result"; "detailed_feedback"]) value_mountable
  && read_satisfies (path response ["grading_result"; "section_scores"]) properties_mountable
  && read_satisfies (let* parsed := get response "parsed_data" in
                     opt_get parsed "personal_info") properties_mountable.

(** Whatever [r] returns holds no plain object in child position. *)
Definition mounts (r : result node) : Prop :=
  forall n, r = Returns n -> mountable n = true.

(** An environment that sets the base URL. *)
Definition configured_env : list (string * value) :=
  [("BASE_URL", VStr "/"); ("MODE", VStr "production");
   ("VITE_API_URL", VStr "https://api.example.org")].

(** A response with every part filled in. *)
Definition full_grading_result : value :=
  VObj [("overall_score", VNum 81);
        ("section_scores",
         VObj [("personal_info", VNum 9); ("experience", VNum 7);
               ("education", VNum 8); ("skills", VNum 0);
               ("projects", VNum 6)]);
        ("strengths", VArr [VStr "Clear structure"; VStr "Quantified results"]);
        ("tips", VArr [VStr "Add a summary"]);
        ("detailed_feedback", VStr "Solid resume.")].

Definition full_parsed_data : value :=
  VObj [("personal_info",
         VObj [("name", VStr "Ada Lovelace"); ("email", VStr "ada@example.org");
               ("phone", VStr "555-0100"); ("github", VStr "github.com/ada")]);
        ("education",
         VArr [VObj [("institution", VStr "University of London");
                     ("degree", VStr "BSc"); ("field_of_study", VStr "Mathematics");
                     ("year", VNum 1835)]]);
        ("experience",
         VArr [VObj [("position", VStr "Analyst"); ("company", VStr "Analytical Engines");
                     ("duration", VStr "1842-1843");
                     ("description", VStr "Wrote the first program.");
                     ("key_achievements", VArr [VStr "Note G"])]]);
        ("skills", VArr [VStr "Mathematics"; VStr "Programming"]);
        ("projects",
         VArr [VObj [("name", VStr "Bernoulli numbers");
                     ("description", VStr "A program for the engine.");
                     ("technologies", VArr [VStr "Punched cards"; VStr "Gears"]);
                     ("url", VStr "https://example.org/note-g")]])].

Definition full_response : value :=
  VObj [("grading_result", full_grading_result); ("parsed_data", full_parsed_data)].

(** The response an earlier server version sent to [App.jsx]. *)
Definition score_and_tips : value :=
  VObj [("score", VNum 64); ("tips", VArr [VStr "Shorten it"; VStr "Add dates"])].

(* ===================================================================== *)
(** ** Elements a rendering cannot contain *)
(* ===================================================================== *)

Section TagFree.

Variable name : string.

Lemma tag_free_txt (s : string) : tag_free name (txt s).
Proof. intros n H. injection H as <-. reflexivity. Qed.

Lemma tag_free_val (r : result value) : tag_free name (val r).
Proof.
  intros n H. unfold val in H.
  destruct r; simpl in H; try discriminate.
  injection H as <-. reflexivity.
Qed.

Lemma tag_free_bind {A : Type} (r : result A) (k : A -> result node) :
  (forall a, tag_free name (k a)) -> tag_free name (bind r k).
Proof.
  intros Hk n H. destruct r; simpl in H; try discriminate.
  exact (Hk a n H).
Qed.

Lemma tag_free_and_then (c : value) (k : result node) :
  tag_free name k -> tag_free name (and_then c k).
Proof.
  intros Hk n H. unfold and_then in H.
  destruct (truthy c).
  - exact (Hk n H).
  - injection H as <-. reflexivity.
Qed.

Lemma tag_free_guard_nonempty (x len : result value) (body : result node) :
  tag_free name body -> tag_free name (guard_nonempty x len body).
Proof.
  intros Hb. unfold guard_nonempty.
  apply tag_free_bind; intros a.
  apply tag_free_and_then.
  apply tag_free_bind; intros n.
  apply tag_free_bind; intros p.
  apply tag_free_and_then. exact Hb.
Qed.

Lemma sequence_tag_free (kids : list (result node)) :
  Forall (tag_free name) kids ->
  forall children, sequence kids = Returns children ->
  flat_map (elements_by_tag name) children = [].
Proof.
  induction 1 as [|k kids Hk _ IH]; intros children H; simpl in H.
  - injection H as <-. reflexivity.
  - destruct k as [n| |]; simpl in H; try discriminate.
    destruct (sequence kids) as [others| |]; simpl in H; try discriminate.
    injection H as <-. simpl.
    rewrite (Hk n eq_refl), (IH others eq_refl). reflexivity.
Qed.

Lemma tag_free_el (t : tag) (attrs : list (string * attr)) (kids : list (result node)) :
  other_tag name t = true ->
  Forall (tag_free name) kids ->
  tag_free name (el t attrs kids).
Proof.
  intros Ht Hkids n H. unfold el in H.
  destruct (sequence kids) as [children| |] eqn:Hseq; simpl in H; try discriminate.
  injection H as <-. simpl.
  rewrite (sequence_tag_free kids Hkids children Hseq).
  destruct t as [name'| |]; try reflexivity.
  simpl in Ht. destruct (name =? name')%string; [discriminate | reflexivity].
Qed.

Lemma map_indexed_tag_free (f : value -> Z -> result node) :
  (forall x i, tag_free name (f x i)) ->
  forall l i ns, map_indexed f i l = Returns ns ->
  flat_map (elements_by_tag name) ns = [].
Proof.
  intros Hf. induction l as [|x rest IH]; intros i ns H; simpl in H.
  - injection H as <-. reflexivity.
  - destruct (f x i) as [n| |] eqn:Hx; simpl in H; try discriminate.
    destruct (map_indexed f (i + 1) rest) as [others| |] eqn:Hrest;
      simpl in H; try discriminate.
    injection H as <-. simpl.
    rewrite (Hf x i n Hx), (IH _ _ Hrest). reflexivity.
Qed.

Lemma tag_free_array_map (what : string) (v : value) (f : value -> Z -> result node) :
  (forall x i, tag_free name (f x i)) -> tag_free name (array_map what v f).
Proof.
  intros Hf n H. destruct v; simpl in H; try discriminate.
  destruct (map_indexed f 0 items) as [ns| |] eqn:Hmap; simpl in H; try discriminate.
  injection H as <-. simpl.
  exact (map_indexed_tag_free f Hf _ _ _ Hmap).
Qed.

End TagFree.

(** Discharges a [tag_free] goal about a rendering built from the
    combinators above. *)
Ltac tag_free_step :=
  match goal with
  | |- forall _, _ => intro
  | |- tag_free _ (txt _) => apply tag_free_txt
  | |- tag_free _ (val _) => apply tag_free_val
  | |- tag_free _ (bind _ _) => apply tag_free_bind
  | |- tag_free _ (and_then _ _) => apply tag_free_and_then
  | |- tag_free _ (guard_nonempty _ _ _) => apply tag_free_guard_nonempty
  | |- tag_free _ (array_map _ _ _) => apply tag_free_array_map
  | |- tag_free _ (el _ _ _) => apply tag_free_el; [reflexivity | ]
  | |- Forall _ [] => apply Forall_nil
  | |- Forall _ (_ :: _) => apply Forall_cons
  end.

Ltac tag_free := repeat tag_free_step.

Lemma AppJsx_panel_has_no_button (response : value) :
  tag_free "button" (AppJsx.result_panel response).
Proof. unfold AppJsx.result_panel. tag_free. Qed.

Lemma Part000_panel_has_no_button (response : value) :
  tag_free "button" (Part000.result_panel response).
Proof. unfold Part000.result_panel. tag_free. Qed.

Lemma Part001_panel_has_no_button (response : value) :
  tag_free "button" (Part001.result_panel response).
Proof.
  unfold Part001.result_panel, Part001.overall, Part001.personal_information,
    Part001.education, Part001.experience, Part001.skills, Part001.projects,
    Part001.strengths, Part001.tips, Part001.detailed_feedback, Part001.section_score.
  tag_free;
    unfold Part001.education_entry, Part001.experience_entry, Part001.project_entry,
      Part001.li_items;
    tag_free.
Qed.

(** The frame all three revisions share: title, file picker, submit
    control, loading indicator, result container.  Whatever the result
    panel holds, the tree has exactly one button. *)
Lemma frame_has_one_button
  (button_attrs : list (string * attr)) (ld : bool) (panel : result node) (tree : node) :
  tag_free "button" panel ->
  el Fragment [] [
    el (Host "div") [("className", str "App")] [
      el (Host "h1") [] [txt "Automated Resume Grader"] ];
    el (Host "div") [] [
      el (Host "input")
         [("type", str "file"); ("accept", str ".pdf");
          ("onChange", AHandler HandleFileChange);
          ("placeholder", str "choose your Resume")] [] ];
    el (Host "div") [] [ el (Host "button") button_attrs [txt "Upload"] ];
    and_then (VBool ld) (el (Component "Spinner") [] []);
    el (Host "div") [] [ panel ] ] = Returns tree ->
  elements_by_tag "button" tree = [NElem (Host "button") button_attrs [NVal (VStr "Upload")]].
Proof.
  intros Hfree H.
  destruct panel as [p| |]; destruct ld; simpl in H; try discriminate;
    injection H as <-; simpl; rewrite (Hfree p eq_refl); reflexivity.
Qed.

(* ===================================================================== *)
(** ** The submit control *)
(* ===================================================================== *)

(** C1, as stated, fails.  In the revision [src/src/App.jsx] the button has
    no [disabled] attribute: in the initial state, where no file is
    selected, the submit control is rendered enabled. *)
Lemma C1_submit_enabled_without_file :
  sel_truthy (files initial_state) = false /\
  exists tree,
    render App_jsx initial_state = Returns tree /\
    submit_disabled tree = Some false.
Proof.
  split; [reflexivity|].
  eexists. split; reflexivity.
Qed.

(** C1, amended.  In the revision [part_001] the submit control of every
    rendered tree is disabled exactly when [files] is falsy or [loading] is
    true; in the revisions [App.jsx] and [part_000] the button carries no
    [disabled] attribute and is never disabled. *)
Theorem C1_submit_control (r : revision) (s : State) (tree : node) :
  render r s = Returns tree ->
  submit_disabled tree =
  Some (match r with
        | part_001 => negb (sel_truthy (files s)) || loading s
        | App_jsx | part_000 => false
        end).
Proof.
  intros H. unfold submit_disabled.
  destruct r; simpl in H.
  - unfold AppJsx.App in H.
    rewrite (frame_has_one_button _ _ _ _ (AppJsx_panel_has_no_button (response s)) H).
    reflexivity.
  - unfold Part000.App in H.
    rewrite (frame_has_one_button _ _ _ _ (Part000_panel_has_no_button (response s)) H).
    reflexivity.
  - unfold Part001.App in H.
    rewrite (frame_has_one_button _ _ _ _ (Part001_panel_has_no_button (response s)) H).
    simpl. destruct (sel_truthy (files s)), (loading s); reflexivity.
Qed.

Lemma C1_submit_control_witness :
  exists tree,
    render part_001 initial_state = Returns tree /\
    submit_disabled tree = Some true.
Proof.
  eexists. split.
  - reflexivity.
  - apply (C1_submit_control part_001 initial_state). reflexivity.
Defined.

(* ===================================================================== *)
(** ** Rendering the result panel *)
(* ===================================================================== *)

(** C5, as stated, fails.  The revision [src/src/App.jsx] reads
    [response.tips.map] without a guard and throws on this response. *)
Lemma C5_App_jsx_throws :
  render App_jsx {| files := SelNull; response := only_overall_score; loading := false |}
  = Throws (TypeError "Cannot read properties of undefined (reading 'map')").
Proof. reflexivity. Qed.

(** C5, amended.  With the response [{grading_result: {overall_score: 72}}]
    the revision [part_001] renders without throwing a tree React can
    mount, whose only [h2] holds the number 72 and which has no [h3], the
    heading every section opens with (so none of the skills, projects and
    experience sections); the revisions
    [App.jsx] and [part_000], which read [response.tips.map] and
    [response.parsed_data.personal_info] unguarded, throw a [TypeError]. *)
Theorem C5_partial_response (fs : selection) (ld : bool) :
  let s := {| files := fs; response := only_overall_score; loading := ld |} in
  (exists tree kids,
      render part_001 s = Returns tree /\
      mountable tree = true /\
      elements_by_tag "h2" tree = [NElem (Host "h2") [] kids] /\
      In (NVal (VNum 72)) kids /\
      elements_by_tag "h3" tree = []) /\
  render App_jsx s
    = Throws (TypeError "Cannot read properties of undefined (reading 'map')") /\
  render part_000 s
    = Throws (TypeError "Cannot read properties of undefined (reading 'personal_info')").
Proof.
  intros s. split; [|split].
  - destruct ld; do 2 eexists; (split; [reflexivity|]);
      (split; [reflexivity|]); (split; [reflexivity|]);
      (split; [|reflexivity]); simpl; tauto.
  - destruct ld; reflexivity.
  - destruct ld; reflexivity.
Qed.

(** C7.  With [response] equal to [null], every revision renders the title,
    the file picker, the submit control, the loading indicator when
    [loading] is set, and a result container that holds nothing but the
    [null] itself: no part of the result panel. *)
Theorem C7_null_response_renders_no_panel (r : revision) (fs : selection) (ld : bool) :
  render r {| files := fs; response := VNull; loading := ld |} =
  Returns
    (NElem Fragment [] [
       NElem (Host "div") [("className", str "App")] [
         NElem (Host "h1") [] [NVal (VStr "Automated Resume Grader")] ];
       NElem (Host "div") [] [
         NElem (Host "input")
           [("type", str "file"); ("accept", str ".pdf");
            ("onChange", AHandler HandleFileChange);
            ("placeholder", str "choose your Resume")] [] ];
       NElem (Host "div") [] [
         NElem (Host "button")
           (match r with
            | part_001 =>
                [("onClick", AHandler HandleUpload);
                 ("disabled", AVal (VBool (negb (sel_truthy fs) || ld)))]
            | App_jsx | part_000 => [("onClick", AHandler HandleUpload)]
            end)
           [NVal (VStr "Upload")] ];
       (if ld then NElem (Component "Spinner") [] [] else NVal (VBool false));
       NElem (Host "div") [] [NVal VNull] ]).
Proof. destruct r, ld; reflexivity. Qed.

(** X24.  In [part_001] a section score that is truthy (any number but
    0, a non-empty string, ...) is shown as it is. *)
Lemma section_score_truthy (response gr : value) (fields : list (string * value))
  (name : string) (score : value) :
  get response "grading_result" = Returns gr ->
  get gr "section_scores" = Returns (VObj fields) ->
  own_property name fields = Some score ->
  truthy score = true ->
  Part001.section_score response name = Returns (NVal score).
Proof.
  intros Hgr Hscores Hown Htruthy.
  unfold Part001.section_score, val. rewrite Hgr. cbn [bind]. rewrite Hscores.
  cbn [bind opt_get nullish get]. rewrite Hown.
  cbn [bind]. unfold or_else. rewrite Htruthy. reflexivity.
Qed.

(** C10.  In [part_001] the placeholder is chosen by [||], which tests
    truthiness: whenever [section_scores?.NAME] evaluates to the number 0,
    the cell rendered for that section is ["N/A"] and not 0, exactly as
    when it evaluates to [undefined] because the field is missing. *)
Theorem C10_zero_score_shown_as_placeholder
  (response gr scores : value) (name : string) :
  get response "grading_result" = Returns gr ->
  get gr "section_scores" = Returns scores ->
  opt_get scores name = Returns (VNum 0) \/ opt_get scores name = Returns VUndefined ->
  Part001.section_score response name = Returns (NVal (VStr "N/A")).
Proof.
  intros Hgr Hscores Hscore.
  unfold Part001.section_score, val. rewrite Hgr. cbn [bind]. rewrite Hscores.
  cbn [bind].
  destruct Hscore as [-> | ->]; reflexivity.
Qed.

Lemma C10_zero_score_shown_as_placeholder_witness :
  path all_zero_scores ["grading_result"; "section_scores"; "skills"] = Returns (VNum 0) /\
  Part001.section_score all_zero_scores "skills" = Returns (NVal (VStr "N/A")).
Proof.
  split; [reflexivity|].
  apply (C10_zero_score_shown_as_placeholder all_zero_scores
           (VObj [("overall_score", VNum 0);
                  ("section_scores",
                   VObj [("personal_info", VNum 0); ("experience", VNum 0);
                         ("education", VNum 0); ("skills", VNum 0);
                         ("projects", VNum 0)])])
           (VObj [("personal_info", VNum 0); ("experience", VNum 0);
                  ("education", VNum 0); ("skills", VNum 0); ("projects", VNum 0)])
           "skills").
  - reflexivity.
  - reflexivity.
  - left. reflexivity.
Defined.

(** The heading [part_001] renders for [all_zero_scores]: the overall
    score, read without [||], shows as 0; the five section scores show as
    the placeholder. *)
Example overall_of_all_zero_scores :
  Part001.overall all_zero_scores =
  Returns
    (NElem (Host "h2") [] [
       NVal (VStr "Your Overall Score is"); NVal (VStr " "); NVal (VNum 0);
       NVal (VStr " out of 100 and your section scores are: personal info");
       NVal (VStr " "); NVal (VStr "N/A"); NVal (VStr " ");
       NVal (VStr ", experience"); NVal (VStr " "); NVal (VStr "N/A"); NVal (VStr " ");
       NVal (VStr ", education"); NVal (VStr " "); NVal (VStr "N/A"); NVal (VStr " ");
       NVal (VStr ", skills"); NVal (VStr " "); NVal (VStr "N/A");
       NVal (VStr ", projects"); NVal (VStr " "); NVal (VStr "N/A") ]).
Proof. reflexivity. Qed.

(* ===================================================================== *)
(** ** Submitting *)
(* ===================================================================== *)

(** Runs a handler on a symbolic world. *)
Ltac run_handler := cbv -[app String.append]; try reflexivity.

(** C3.  When the request is fulfilled with a response [res], every
    revision completes normally with [response] equal to [res.data], as it
    came, and [loading] false. *)
Theorem C3_success_stores_body
  (r : revision) (url : string) (res : AxiosResponse) (w : World) :
  exists w',
    submit r url (Fulfilled res) w = Normal tt w' /\
    response (st w') = data res /\
    loading (st w') = false /\
    files (st w') = files (st w).
Proof.
  destruct r; eexists; (split; [run_handler|]); simpl; auto.
Qed.

(** In [part_001] a rejected request ends with [loading] false and
    completes normally. *)
Lemma Part001_failure_clears_loading (url : string) (reason : value) (w : World) :
  exists w',
    Part001.handleUpload url (Rejected reason) w = Normal tt w' /\
    loading (st w') = false.
Proof. eexists. split; [run_handler | reflexivity]. Qed.

(** C2 is violated by two revisions.  When the request is rejected,
    [part_000] completes normally but leaves [loading] true, its [catch]
    block never calling [setLoading(false)]; [App.jsx] reads the undeclared
    [err] in its [catch (e)] block, so a [ReferenceError] escapes the
    handler, again with [loading] left true. *)
Theorem C2_failure_leaves_loading_set (reason : value) (w : World) :
  (exists w',
      submit part_000 "" (Rejected reason) w = Normal tt w' /\
      loading (st w') = true) /\
  (exists w',
      submit App_jsx "" (Rejected reason) w
        = Abrupt (ReferenceError "err is not defined") w' /\
      loading (st w') = true).
Proof. split; eexists; (split; [run_handler | reflexivity]). Qed.

(** C4, as stated, fails.  In [part_000] a rejected request leaves
    [response] holding the rejection reason: neither the value from before
    the submit nor [null]; and nothing is logged. *)
Lemma C4_part_000_stores_the_error :
  exists w',
    submit part_000 "" (Rejected network_error) (world_of initial_state) = Normal tt w' /\
    response (st w') <> response initial_state /\
    response (st w') <> VNull /\
    response (st w') <> VUndefined /\
    console_errors w' = [].
Proof.
  eexists. split; [run_handler|]. simpl.
  repeat split; discriminate.
Qed.

(** C4, amended.  When the request is rejected with [reason], [part_001]
    clears [response] to [null] and writes one [console.error] line that
    carries [reason]; [part_000] stores [reason] itself in [response] and
    writes nothing to the console. *)
Theorem C4_failure_response (url : string) (reason : value) (w : World) :
  (exists w',
      submit part_001 url (Rejected reason) w = Normal tt w' /\
      response (st w') = VNull /\
      console_errors w' = (console_errors w ++ [[VStr "Upload failed:"; reason]])%list) /\
  (exists w',
      submit part_000 url (Rejected reason) w = Normal tt w' /\
      response (st w') = reason /\
      console_errors w' = console_errors w).
Proof. split; eexists; (split; [run_handler|]); simpl; auto. Qed.

(** Every revision issues exactly one request per call, a POST whose body
    has one entry. *)
Lemma submit_issues_one_request (r : revision) (url : string) (net : settled) (w : World) :
  exists req,
    requests (world_after (submit r url net w)) = (requests w ++ [req])%list /\
    req_method req = "POST"%string /\
    List.length (req_body req) = 1%nat.
Proof.
  destruct r, net; eexists; (split; [reflexivity|]); split; reflexivity.
Qed.

(** X25.  In [part_000] and [part_001], picking files and submitting sends
    one POST whose body is one file part, ["file"], holding the first file
    picked; the other files are not sent. *)
Lemma later_revisions_send_one_file_part
  (f : File) (others : FileList) (url : string) (net : settled) :
  requests (select_then_submit part_000 (f :: others) url net)
    = [mkRequest "POST" "http://localhost:8000/upload-resume" [("file", EFile f)]] /\
  requests (select_then_submit part_001 (f :: others) url net)
    = [mkRequest "POST" (url ++ "/grade-resume") [("file", EFile f)]].
Proof. split; destruct net; reflexivity. Qed.

(** C6 is violated by [App.jsx].  Picking [resume.pdf] and submitting does
    send exactly one POST, but its body has no file part: the one entry,
    ["resume"], is the string ["[object FileList]"]. *)
Theorem C6_App_jsx_sends_no_file_part (net : settled) :
  exists req,
    requests (select_then_submit App_jsx [resume_pdf] "" net) = [req] /\
    req_method req = "POST" /\
    req_body req = [("resume", EString "[object FileList]")] /\
    file_parts (req_body req) = [].
Proof.
  destruct net; eexists; (split; [reflexivity|]); repeat split.
Qed.

(** C9.  In [App.jsx] the [onChange] handler stores the whole [FileList]
    in [files], and [handleUpload] then appends that object under
    ["resume"]: the field of the one request sent is the string
    ["[object FileList]"], not a file part. *)
Theorem C9_App_jsx_appends_the_FileList (picked : FileList) (net : settled) (w : World) :
  exists w1,
    AppJsx.onChange picked w = Normal tt w1 /\
    files (st w1) = SelFileList picked /\
    requests (world_after (AppJsx.handleUpload net w1))
      = (requests w ++
         [mkRequest "POST" "http://localhost:3000/uploads"
            [("resume", EString "[object FileList]")]])%list.
Proof.
  eexists. split; [reflexivity|]. split; [reflexivity|].
  destruct net; reflexivity.
Qed.

(* ===================================================================== *)
(** ** The base URL *)
(* ===================================================================== *)

(** C8 is violated by [part_001].  Line 6 assigns to [url] without ever
    declaring it: loading the module throws a [ReferenceError], so no base
    URL is set, neither from the environment nor by default.  And with no
    [VITE_API_URL] in [import.meta.env], the right-hand side had not taken
    the default anyway: the template literal turns [undefined] into the
    truthy string ["undefined"]. *)
Theorem C8_url_without_setting (env : list (string * value)) :
  own_property "VITE_API_URL" env = None ->
  Part001.url (VObj env) = Throws (ReferenceError "url is not defined") /\
  Part001.url_initializer (VObj env) = Returns "undefined"%string /\
  "undefined"%string <> "http://localhost:8000"%string.
Proof.
  intros Hown.
  assert (Hinit : Part001.url_initializer (VObj env) = Returns "undefined"%string).
  { unfold Part001.url_initializer. cbn [get bind]. rewrite Hown. reflexivity. }
  split; [|split].
  - unfold Part001.url. rewrite Hinit. reflexivity.
  - exact Hinit.
  - discriminate.
Qed.

Lemma C8_url_without_setting_witness :
  own_property "VITE_API_URL" vite_builtin_env = None /\
  Part001.url (VObj vite_builtin_env) = Throws (ReferenceError "url is not defined") /\
  Part001.url_initializer (VObj vite_builtin_env) = Returns "undefined"%string /\
  "undefined"%string <> "http://localhost:8000"%string.
Proof.
  split; [reflexivity|].
  apply (C8_url_without_setting vite_builtin_env).
  reflexivity.
Defined.

(** X22.  Loading the module of [part_001] throws the [ReferenceError] of
    line 6 whatever the environment holds: with [VITE_API_URL] set to any
    string, or not set.  No setting is ever used as the base URL. *)
Theorem Part001_module_never_sets_url (env : list (string * value)) :
  (own_property "VITE_API_URL" env = None \/
   exists s, own_property "VITE_API_URL" env = Some (VStr s)) ->
  Part001.url (VObj env) = Throws (ReferenceError "url is not defined").
Proof.
  intros Hown. unfold Part001.url, Part001.url_initializer. cbn [get bind].
  destruct Hown as [-> | [s ->]]; reflexivity.
Qed.

Lemma Part001_module_never_sets_url_witness :
  Part001.url (VObj configured_env) = Throws (ReferenceError "url is not defined").
Proof.
  apply (Part001_module_never_sets_url configured_env).
  right. exists "https://api.example.org"%string. reflexivity.
Defined.

(* ===================================================================== *)
(** ** The frame around the result panel *)
(* ===================================================================== *)

(** X1.  In every revision the rendered tree is the same frame: title, file
    picker, submit button, the [Spinner] exactly when [loading] is true
    (the value [false] otherwise), and a container around the result panel.
    Rendering returns exactly when the panel does, and throws what it
    throws. *)
Theorem render_is_frame_around_panel (r : revision) (s : State) :
  render r s =
  let* panel := panel_of r (response s) in
  Returns
    (NElem Fragment [] [
       NElem (Host "div") [("className", str "App")] [
         NElem (Host "h1") [] [NVal (VStr "Automated Resume Grader")] ];
       NElem (Host "div") [] [
         NElem (Host "input")
           [("type", str "file"); ("accept", str ".pdf");
            ("onChange", AHandler HandleFileChange);
            ("placeholder", str "choose your Resume")] [] ];
       NElem (Host "div") [] [
         NElem (Host "button")
           (match r with
            | part_001 =>
                [("onClick", AHandler HandleUpload);
                 ("disabled", AVal (VBool (negb (sel_truthy (files s)) || loading s)))]
            | App_jsx | part_000 => [("onClick", AHandler HandleUpload)]
            end)
           [NVal (VStr "Upload")] ];
       (if loading s then NElem (Component "Spinner") [] [] else NVal (VBool false));
       NElem (Host "div") [] [panel] ]).
Proof.
  destruct r; simpl;
    [ unfold AppJsx.App; destruct (AppJsx.result_panel (response s))
    | unfold Part000.App; destruct (Part000.result_panel (response s))
    | unfold Part001.App; destruct (Part001.result_panel (response s)) ];
    destruct (loading s); reflexivity.
Qed.

(* ===================================================================== *)
(** ** A section score that is set *)
(* ===================================================================== *)

Lemma section_score_truthy_witness :
  Part001.section_score full_response "education" = Returns (NVal (VNum 8)).
Proof.
  apply (section_score_truthy full_response
           full_grading_result
           [("personal_info", VNum 9); ("experience", VNum 7);
            ("education", VNum 8); ("skills", VNum 0); ("projects", VNum 6)]
           "education" (VNum 8)); reflexivity.
Defined.

(* ===================================================================== *)
(** ** Reads that cannot throw *)
(* ===================================================================== *)

Lemma truthy_not_nullish (v : value) : truthy v = true -> nullish v = false.
Proof. destruct v; simpl; congruence. Qed.

Lemma get_returns (v : value) (k : string) :
  nullish v = false -> returns (get v k).
Proof.
  unfold returns. destruct v; simpl; intros H; try discriminate; eauto.
  - destruct (k =? "length")%string; eauto.
  - destruct (k =? "length")%string; eauto.
  - destruct (own_property k fields); eauto.
Qed.

Lemma opt_get_returns (v : value) (k : string) : returns (opt_get v k).
Proof.
  unfold opt_get. destruct (nullish v) eqn:Hv.
  - exists VUndefined. reflexivity.
  - apply get_returns, Hv.
Qed.

(** A truthy result of [v?.k] was read from a [v] that is not nullish, so
    [v.k] reads the same value. *)
Lemma opt_get_truthy (v x : value) (k : string) :
  opt_get v k = Returns x -> truthy x = true -> get v k = Returns x.
Proof.
  unfold opt_get. destruct (nullish v); [|tauto].
  intros H Hx. injection H as <-. discriminate.
Qed.

Lemma get_opt_get (v x : value) (k : string) :
  get v k = Returns x -> opt_get v k = Returns x.
Proof.
  intros H. unfold opt_get. destruct v; simpl in *; try discriminate; exact H.
Qed.

Lemma returns_bind {A B : Type} (r : result A) (k : A -> result B) :
  returns r -> (forall a, r = Returns a -> returns (k a)) -> returns (bind r k).
Proof.
  intros [a ->] Hk. simpl. apply Hk. reflexivity.
Qed.

Lemma returns_val (r : result value) : returns r -> returns (val r).
Proof. intros [v ->]. eexists. reflexivity. Qed.

Lemma returns_txt (s : string) : returns (txt s).
Proof. eexists. reflexivity. Qed.

Lemma returns_and_then (c : value) (k : result node) :
  (truthy c = true -> returns k) -> returns (and_then c k).
Proof.
  intros Hk. unfold and_then. destruct (truthy c).
  - apply Hk. reflexivity.
  - eexists. reflexivity.
Qed.

Lemma returns_sequence {A : Type} (l : list (result A)) :
  Forall returns l -> returns (sequence l).
Proof.
  induction 1 as [|r l [a ->] _ [others IH]]; simpl.
  - eexists. reflexivity.
  - rewrite IH. eexists. reflexivity.
Qed.

Lemma returns_el (t : tag) (attrs : list (string * attr)) (kids : list (result node)) :
  Forall returns kids -> returns (el t attrs kids).
Proof.
  intros H. unfold el. destruct (returns_sequence kids H) as [children ->].
  eexists. reflexivity.
Qed.

Lemma returns_or_else (a : value) (b : result value) :
  returns b -> returns (or_else a b).
Proof.
  intros Hb. unfold or_else. destruct (truthy a); [eexists; reflexivity | exact Hb].
Qed.

(* ===================================================================== *)
(** ** When the result panel is not shown *)
(* ===================================================================== *)

(** X2.  In every revision a falsy response ([null], [undefined], [false],
    0, the empty string) puts no panel in the result container: the
    container holds that value itself. *)
Theorem falsy_response_shows_no_panel (r : revision) (response : value) :
  truthy response = false ->
  panel_of r response = Returns (NVal response).
Proof.
  intros H. destruct r; simpl;
    [unfold AppJsx.result_panel | unfold Part000.result_panel
     | unfold Part001.result_panel];
    unfold and_then; rewrite H; reflexivity.
Qed.

Lemma falsy_response_shows_no_panel_witness :
  panel_of part_000 (VStr "") = Returns (NVal (VStr "")).
Proof. apply (falsy_response_shows_no_panel part_000 (VStr "")). reflexivity. Defined.

(** X3.  In [part_001] a response without a truthy [grading_result] shows
    no panel either, whatever else it carries: the container holds the
    falsy [grading_result] value. *)
Theorem Part001_no_panel_without_grading_result (response grading : value) :
  truthy response = true ->
  get response "grading_result" = Returns grading ->
  truthy grading = false ->
  Part001.result_panel response = Returns (NVal grading).
Proof.
  intros Hr Hg Hfalsy. unfold Part001.result_panel, and_then.
  rewrite Hr, Hg. cbn [bind]. rewrite Hfalsy. reflexivity.
Qed.

Lemma Part001_no_panel_without_grading_result_witness :
  Part001.result_panel
    (VObj [("parsed_data", VObj [("skills", VArr [VStr "Rocq"])])])
  = Returns (NVal VUndefined).
Proof.
  apply (Part001_no_panel_without_grading_result
           (VObj [("parsed_data", VObj [("skills", VArr [VStr "Rocq"])])]) VUndefined);
    reflexivity.
Defined.

(* ===================================================================== *)
(** ** Trees React can mount *)
(* ===================================================================== *)

Lemma falsy_mountable (v : value) : truthy v = false -> value_mountable v = true.
Proof. destruct v; simpl; congruence. Qed.

Lemma own_property_In (k : string) (fields : list (string * value)) (x : value) :
  own_property k fields = Some x -> In (k, x) fields.
Proof.
  induction fields as [|[k' v] rest IH]; simpl; [discriminate|].
  destruct (String.eqb_spec k k') as [-> | _].
  - intros H. injection H as <-. left. reflexivity.
  - intros H. right. exact (IH H).
Qed.

Lemma get_mountable (v x : value) (k : string) :
  properties_mountable v = true -> get v k = Returns x -> value_mountable x = true.
Proof.
  intros Hv Hget. destruct v; simpl in Hget; try discriminate.
  - injection Hget as <-. reflexivity.
  - injection Hget as <-. reflexivity.
  - destruct (k =? "length")%string; injection Hget as <-; reflexivity.
  - destruct (k =? "length")%string; injection Hget as <-; reflexivity.
  - destruct (own_property k fields) as [y|] eqn:Hown; injection Hget as <-;
      [|reflexivity].
    simpl in Hv. rewrite forallb_forall in Hv.
    exact (Hv (k, y) (own_property_In _ _ _ Hown)).
Qed.

Lemma opt_get_mountable (v x : value) (k : string) :
  properties_mountable v = true -> opt_get v k = Returns x -> value_mountable x = true.
Proof.
  unfold opt_get. destruct (nullish v).
  - intros _ H. injection H as <-. reflexivity.
  - apply get_mountable.
Qed.

Lemma mounts_txt (s : string) : mounts (txt s).
Proof. intros n H. injection H as <-. reflexivity. Qed.

Lemma mounts_val (r : result value) :
  (forall v, r = Returns v -> value_mountable v = true) -> mounts (val r).
Proof.
  intros Hr n H. unfold val in H. destruct r as [v| |]; simpl in H; try discriminate.
  injection H as <-. simpl. apply Hr. reflexivity.
Qed.

Lemma mounts_bind {A : Type} (r : result A) (k : A -> result node) :
  (forall a, r = Returns a -> mounts (k a)) -> mounts (bind r k).
Proof.
  intros Hk n H. destruct r as [a| |]; simpl in H; try discriminate.
  exact (Hk a eq_refl n H).
Qed.

Lemma mounts_and_then (c : value) (k : result node) :
  mounts k -> mounts (and_then c k).
Proof.
  intros Hk n H. unfold and_then in H. destruct (truthy c) eqn:Hc.
  - exact (Hk n H).
  - injection H as <-. simpl. apply falsy_mountable, Hc.
Qed.

Lemma mounts_guard_nonempty (x len : result value) (body : result node) :
  mounts body -> mounts (guard_nonempty x len body).
Proof.
  intros Hb. unfold guard_nonempty.
  apply mounts_bind; intros a _.
  apply mounts_and_then.
  apply mounts_bind; intros n _.
  apply mounts_bind; intros p _.
  apply mounts_and_then. exact Hb.
Qed.

Lemma sequence_mounts (kids : list (result node)) :
  Forall mounts kids ->
  forall children, sequence kids = Returns children ->
  forallb mountable children = true.
Proof.
  induction 1 as [|k kids Hk _ IH]; intros children H; simpl in H.
  - injection H as <-. reflexivity.
  - destruct k as [n| |]; simpl in H; try discriminate.
    destruct (sequence kids) as [others| |]; simpl in H; try discriminate.
    injection H as <-. simpl.
    rewrite (Hk n eq_refl), (IH others eq_refl). reflexivity.
Qed.

Lemma mounts_el (t : tag) (attrs : list (string * attr)) (kids : list (result node)) :
  Forall mounts kids -> mounts (el t attrs kids).
Proof.
  intros Hkids n H. unfold el in H.
  destruct (sequence kids) as [children| |] eqn:Hseq; simpl in H; try discriminate.
  injection H as <-. simpl. exact (sequence_mounts kids Hkids children Hseq).
Qed.

Lemma map_indexed_mounts (f : value -> Z -> result node) (l : list value) :
  (forall x i, In x l -> mounts (f x i)) ->
  forall i ns, map_indexed f i l = Returns ns -> forallb mountable ns = true.
Proof.
  induction l as [|x rest IH]; intros Hf i ns H; simpl in H.
  - injection H as <-. reflexivity.
  - destruct (f x i) as [n| |] eqn:Hx; simpl in H; try discriminate.
    destruct (map_indexed f (i + 1) rest) as [others| |] eqn:Hrest;
      simpl in H; try discriminate.
    injection H as <-. simpl.
    rewrite (Hf x i (or_introl eq_refl) n Hx).
    rewrite (IH (fun y j Hy => Hf y j (or_intror Hy)) _ _ Hrest). reflexivity.
Qed.

Ltac mounts_step :=
  match goal with
  | |- mounts (txt _) => apply mounts_txt
  | |- mounts (el _ _ _) => apply mounts_el
  | |- mounts (and_then _ _) => apply mounts_and_then
  | |- Forall _ [] => apply Forall_nil
  | |- Forall _ (_ :: _) => apply Forall_cons
  end.

Lemma skipped_mountable (v : value) :
  value_mountable (if truthy v then VBool false else v) = true.
Proof. destruct (truthy v) eqn:Hv; [reflexivity | apply falsy_mountable, Hv]. Qed.

Lemma read_satisfies_Returns (r : result value) (p : value -> bool) (x : value) :
  read_satisfies r p = true -> r = Returns x -> p x = true.
Proof. intros H ->. exact H. Qed.

(* ===================================================================== *)
(** ** The parts of the panel that always render *)
(* ===================================================================== *)

Lemma bind_Returns {A : Type} (r : result A) : bind r Returns = r.
Proof. destruct r; reflexivity. Qed.

Lemma path_two (v x : value) (a b : string) :
  get v a = Returns x -> path v [a; b] = get x b.
Proof. intros H. cbn [path]. rewrite H. cbn [bind]. apply bind_Returns. Qed.

Lemma path_three (v x y : value) (a b c : string) :
  get v a = Returns x -> get x b = Returns y -> path v [a; b; c] = get y c.
Proof.
  intros Ha Hb. cbn [path]. rewrite Ha. cbn [bind]. rewrite Hb. cbn [bind].
  apply bind_Returns.
Qed.

Ltac returns_step :=
  match goal with
  | |- returns (txt _) => apply returns_txt
  | |- returns (val _) => apply returns_val
  | |- returns (el _ _ _) => apply returns_el
  | |- returns (opt_get _ _) => apply opt_get_returns
  | |- returns (or_else _ _) => apply returns_or_else
  | |- returns (Returns _) => eexists; reflexivity
  | |- Forall _ [] => apply Forall_nil
  | |- Forall _ (_ :: _) => apply Forall_cons
  end.

Lemma section_score_returns (response grading : value) (name : string) :
  get response "grading_result" = Returns grading ->
  nullish grading = false ->
  returns (Part001.section_score response name).
Proof.
  intros Hg Hn. unfold Part001.section_score. apply returns_val.
  rewrite Hg. cbn [bind].
  destruct (get_returns grading "section_scores" Hn) as [scores ->]. cbn [bind].
  destruct (opt_get_returns scores name) as [score ->]. cbn [bind].
  repeat returns_step.
Qed.

(** The personal information block, given the value of [personal_info]:
    three lines that are always there, three that need a truthy field. *)
Lemma personal_information_of (response parsed info : value) :
  get response "parsed_data" = Returns parsed ->
  get parsed "personal_info" = Returns info ->
  truthy info = true ->
  Part001.personal_information response =
  let line (label k : string) :=
    el (Host "p") [] [txt label; val (get info k)] in
  let optional (label k : string) :=
    let* a := get info k in and_then a (line label k) in
  el (Host "div") [] [
    el (Host "h3") [] [txt "Personal Information"];
    line "Name: " "name"; line "Email: " "email"; line "Phone: " "phone";
    optional "Address: " "address"; optional "LinkedIn: " "linkedin";
    optional "GitHub: " "github" ].
Proof.
  intros Hp Hi Ht. unfold Part001.personal_information. cbv zeta.
  rewrite Hp. cbn [bind].
  assert (Hopt : opt_get parsed "personal_info" = Returns info).
  { unfold opt_get. destruct (nullish parsed) eqn:Hn; [|exact Hi].
    destruct parsed; simpl in Hn, Hi; discriminate. }
  rewrite Hopt. cbn [bind]. unfold and_then at 1. rewrite Ht.
  rewrite !(path_three response parsed info _ _ _ Hp Hi). reflexivity.
Qed.

Lemma overall_returns (response grading : value) :
  get response "grading_result" = Returns grading ->
  nullish grading = false ->
  returns (Part001.overall response).
Proof.
  intros Hg Hgn. unfold Part001.overall.
  rewrite (path_two response grading _ _ Hg).
  pose proof (get_returns grading "overall_score" Hgn).
  pose proof (fun name => section_score_returns response grading name Hg Hgn).
  repeat returns_step; auto.
Qed.

Lemma personal_information_returns (response : value) :
  nullish response = false ->
  returns (Part001.personal_information response).
Proof.
  intros Hrn.
  destruct (get_returns response "parsed_data" Hrn) as [parsed Hp].
  destruct (opt_get_returns parsed "personal_info") as [info Hi].
  destruct (truthy info) eqn:Hinfo.
  - rewrite (personal_information_of response parsed info Hp
               (opt_get_truthy _ _ _ Hi Hinfo) Hinfo).
    cbv zeta.
    pose proof (fun k => get_returns info k (truthy_not_nullish _ Hinfo)) as Hk.
    assert (Hline : forall label k,
               returns (el (Host "p") [] [txt label; val (get info k)])).
    { intros label k. repeat returns_step; auto. }
    assert (Hopt : forall label k,
               returns (let* a := get info k in
                        and_then a (el (Host "p") [] [txt label; val (get info k)]))).
    { intros label k. apply returns_bind; [apply Hk|].
      intros a _. apply returns_and_then. intros _. apply Hline. }
    repeat returns_step; auto.
  - unfold Part001.personal_information. cbv zeta.
    rewrite Hp. cbn [bind]. rewrite Hi. cbn [bind].
    apply returns_and_then. congruence.
Qed.

Lemma detailed_feedback_returns (response grading : value) :
  get response "grading_result" = Returns grading ->
  nullish grading = false ->
  returns (Part001.detailed_feedback response).
Proof.
  intros Hg Hgn. unfold Part001.detailed_feedback.
  rewrite (path_two response grading _ _ Hg).
  destruct (get_returns grading "detailed_feedback" Hgn) as [fb Hfb].
  rewrite Hfb. cbn [bind].
  apply returns_and_then. intros _. repeat returns_step.
Qed.

(** What [fixed_values_mountable] says, read by read. *)
Lemma fixed_values_reads (response grading : value) :
  get response "grading_result" = Returns grading ->
  fixed_values_mountable response = true ->
  (forall x, get grading "overall_score" = Returns x -> value_mountable x = true) /\
  (forall x, get grading "detailed_feedback" = Returns x -> value_mountable x = true) /\
  (forall scores, get grading "section_scores" = Returns scores ->
                  properties_mountable scores = true) /\
  (forall parsed info,
      get response "parsed_data" = Returns parsed ->
      opt_get parsed "personal_info" = Returns info ->
      properties_mountable info = true).
Proof.
  intros Hg H. unfold fixed_values_mountable in H.
  rewrite !(path_two response grading _ _ Hg) in H.
  apply andb_prop in H. destruct H as [H H4].
  apply andb_prop in H. destruct H as [H H3].
  apply andb_prop in H. destruct H as [H1 H2].
  repeat split.
  - intros x Hx. exact (read_satisfies_Returns _ _ x H1 Hx).
  - intros x Hx. exact (read_satisfies_Returns _ _ x H2 Hx).
  - intros scores Hs. exact (read_satisfies_Returns _ _ scores H3 Hs).
  - intros parsed info Hp Hi. apply (read_satisfies_Returns _ _ info H4).
    rewrite Hp. exact Hi.
Qed.

Lemma section_score_mounts (response grading : value) (name : string) :
  get response "grading_result" = Returns grading ->
  (forall scores, get grading "section_scores" = Returns scores ->
                  properties_mountable scores = true) ->
  mounts (Part001.section_score response name).
Proof.
  intros Hg Hscores. unfold Part001.section_score. apply mounts_val.
  intros v Hv. rewrite Hg in Hv. cbn [bind] in Hv.
  destruct (get grading "section_scores") as [scores| |] eqn:Hs; try discriminate.
  cbn [bind] in Hv.
  destruct (opt_get scores name) as [score| |] eqn:Ho; try discriminate.
  cbn [bind] in Hv. unfold or_else in Hv.
  destruct (truthy score); injection Hv as <-; [|reflexivity].
  exact (opt_get_mountable scores score name (Hscores scores eq_refl) Ho).
Qed.

Lemma overall_mounts (response grading : value) :
  get response "grading_result" = Returns grading ->
  (forall x, get grading "overall_score" = Returns x -> value_mountable x = true) ->
  (forall scores, get grading "section_scores" = Returns scores ->
                  properties_mountable scores = true) ->
  mounts (Part001.overall response).
Proof.
  intros Hg Hscore Hscores. unfold Part001.overall.
  rewrite (path_two response grading _ _ Hg).
  pose proof (fun name => section_score_mounts response grading name Hg Hscores).
  repeat mounts_step; auto.
  apply mounts_val. exact Hscore.
Qed.

Lemma info_read_mountable (response parsed info v : value) (k : string) :
  get response "parsed_data" = Returns parsed ->
  opt_get parsed "personal_info" = Returns info ->
  properties_mountable info = true ->
  path response ["parsed_data"; "personal_info"; k] = Returns v ->
  value_mountable v = true.
Proof.
  intros Hp Hi Hinfo Hv. cbn [path] in Hv. rewrite Hp in Hv. cbn [bind] in Hv.
  destruct (get parsed "personal_info") as [info'| |] eqn:Hget; try discriminate.
  cbn [bind] in Hv. rewrite bind_Returns in Hv.
  rewrite (get_opt_get _ _ _ Hget) in Hi. injection Hi as ->.
  exact (get_mountable info v k Hinfo Hv).
Qed.

Lemma personal_information_mounts (response : value) :
  (forall parsed info,
      get response "parsed_data" = Returns parsed ->
      opt_get parsed "personal_info" = Returns info ->
      properties_mountable info = true) ->
  mounts (Part001.personal_information response).
Proof.
  intros Hinfo. unfold Part001.personal_information. cbv zeta.
  apply mounts_bind. intros parsed Hp.
  apply mounts_bind. intros info Hi.
  pose proof (fun k v => info_read_mountable response parsed info v k Hp Hi
                           (Hinfo parsed info Hp Hi)) as Hread.
  assert (Hline : forall label k,
             mounts (el (Host "p") []
                        [txt label;
                         val (path response ["parsed_data"; "personal_info"; k])])).
  { intros label k. repeat mounts_step. apply mounts_val. apply Hread. }
  repeat mounts_step;
    try (apply mounts_val; apply Hread);
    apply mounts_bind; intros a _; apply mounts_and_then; apply Hline.
Qed.

Lemma detailed_feedback_mounts (response grading : value) :
  get response "grading_result" = Returns grading ->
  (forall x, get grading "detailed_feedback" = Returns x -> value_mountable x = true) ->
  mounts (Part001.detailed_feedback response).
Proof.
  intros Hg Hfb. unfold Part001.detailed_feedback.
  rewrite (path_two response grading _ _ Hg).
  apply mounts_bind. intros fb _.
  repeat mounts_step. apply mounts_val. exact Hfb.
Qed.

(** X4.  Once the panel guard has passed (a truthy response with a truthy
    [grading_result]), evaluating the heading with the scores, the personal
    information block and the detailed feedback block never throws: [App]
    returns a tree for each, whatever the response holds.  The trees hold
    no plain object in child position, which React would refuse, when the
    values they show ([overall_score], [detailed_feedback], the properties
    of [section_scores] and of [personal_info]) are not objects. *)
Theorem Part001_fixed_parts_evaluate (response grading : value) :
  truthy response = true ->
  get response "grading_result" = Returns grading ->
  truthy grading = true ->
  exists heading info feedback,
    Part001.overall response = Returns heading /\
    Part001.personal_information response = Returns info /\
    Part001.detailed_feedback response = Returns feedback /\
    (fixed_values_mountable response = true ->
     mountable heading = true /\ mountable info = true /\ mountable feedback = true).
Proof.
  intros Hr Hg Ht.
  pose proof (truthy_not_nullish _ Hr) as Hrn.
  pose proof (truthy_not_nullish _ Ht) as Hgn.
  destruct (overall_returns response grading Hg Hgn) as [heading Hh].
  destruct (personal_information_returns response Hrn) as [info Hi].
  destruct (detailed_feedback_returns response grading Hg Hgn) as [feedback Hf].
  exists heading, info, feedback. repeat split; auto;
    destruct (fixed_values_reads response grading Hg H) as [H1 [H2 [H3 H4]]].
  - exact (overall_mounts response grading Hg H1 H3 heading Hh).
  - exact (personal_information_mounts response H4 info Hi).
  - exact (detailed_feedback_mounts response grading Hg H2 feedback Hf).
Qed.

Lemma Part001_fixed_parts_evaluate_witness :
  exists heading info feedback,
    Part001.overall full_response = Returns heading /\
    Part001.personal_information full_response = Returns info /\
    Part001.detailed_feedback full_response = Returns feedback /\
    (fixed_values_mountable full_response = true ->
     mountable heading = true /\ mountable info = true /\ mountable feedback = true).
Proof.
  apply (Part001_fixed_parts_evaluate full_response full_grading_result); reflexivity.
Defined.

(* ===================================================================== *)
(** ** The list sections of [part_001] *)
(* ===================================================================== *)

Lemma no_items_truthy (v : value) :
  no_items v = true -> truthy v = true -> v = VArr [].
Proof.
  destruct v; simpl; try congruence.
  - destruct b; simpl; congruence.
  - destruct (n =? 0); simpl; congruence.
  - destruct (s =? "")%string; simpl; congruence.
  - destruct items; simpl; congruence.
Qed.

Lemma guard_nonempty_skips (x len : result value) (body : result node) (v : value) :
  x = Returns v ->
  no_items v = true ->
  (truthy v = true -> len = Returns (VNum 0)) ->
  guard_nonempty x len body = Returns (NVal (if truthy v then VBool false else v)).
Proof.
  intros -> Hno Hlen. unfold guard_nonempty, and_then. cbn [bind].
  destruct (truthy v); [rewrite (Hlen eq_refl)|]; reflexivity.
Qed.

(** Under [parsed_data]: the guard [response.parsed_data?.K && ...length > 0]
    fails on a [K] without items. *)
Lemma parsed_list_skipped (response parsed v : value) (k : string) (body : result node) :
  get response "parsed_data" = Returns parsed ->
  opt_get parsed k = Returns v ->
  no_items v = true ->
  guard_nonempty
    (let* p := get response "parsed_data" in opt_get p k)
    (path response ["parsed_data"; k; "length"])
    body
  = Returns (NVal (if truthy v then VBool false else v)).
Proof.
  intros Hp Hv Hno. apply guard_nonempty_skips; auto.
  - rewrite Hp. exact Hv.
  - intros Ht. pose proof (opt_get_truthy _ _ _ Hv Ht) as Hget.
    rewrite (path_three _ _ _ _ _ _ Hp Hget).
    rewrite (no_items_truthy v Hno Ht). reflexivity.
Qed.

Lemma grading_list_skipped (response grading v : value) (k : string) (body : result node) :
  get response "grading_result" = Returns grading ->
  get grading k = Returns v ->
  no_items v = true ->
  guard_nonempty
    (path response ["grading_result"; k])
    (path response ["grading_result"; k; "length"])
    body
  = Returns (NVal (if truthy v then VBool false else v)).
Proof.
  intros Hg Hv Hno. apply guard_nonempty_skips; auto.
  - rewrite (path_two _ _ _ _ Hg). exact Hv.
  - intros Ht. rewrite (path_three _ _ _ _ _ _ Hg Hv).
    rewrite (no_items_truthy v Hno Ht). reflexivity.
Qed.

(** X5.  A list section of [part_001] whose field is falsy (missing,
    [null], ...) or the empty array renders no element: a falsy field
    leaves its own value in the tree, the empty array leaves [false]. *)
Theorem Part001_sections_without_items_are_skipped (response parsed grading : value) :
  get response "parsed_data" = Returns parsed ->
  get response "grading_result" = Returns grading ->
  let skipped (v : value) : result node :=
    Returns (NVal (if truthy v then VBool false else v)) in
  (forall v, opt_get parsed "education" = Returns v -> no_items v = true ->
             Part001.education response = skipped v) /\
  (forall v, opt_get parsed "experience" = Returns v -> no_items v = true ->
             Part001.experience response = skipped v) /\
  (forall v, opt_get parsed "skills" = Returns v -> no_items v = true ->
             Part001.skills response = skipped v) /\
  (forall v, opt_get parsed "projects" = Returns v -> no_items v = true ->
             Part001.projects response = skipped v) /\
  (forall v, get grading "strengths" = Returns v -> no_items v = true ->
             Part001.strengths response = skipped v) /\
  (forall v, get grading "tips" = Returns v -> no_items v = true ->
             Part001.tips response = skipped v).
Proof.
  intros Hp Hg skipped. unfold skipped.
  repeat split; intros v Hv Hno.
  - apply (parsed_list_skipped response parsed v "education" _ Hp Hv Hno).
  - apply (parsed_list_skipped response parsed v "experience" _ Hp Hv Hno).
  - apply (parsed_list_skipped response parsed v "skills" _ Hp Hv Hno).
  - apply (parsed_list_skipped response parsed v "projects" _ Hp Hv Hno).
  - apply (grading_list_skipped response grading v "strengths" _ Hg Hv Hno).
  - apply (grading_list_skipped response grading v "tips" _ Hg Hv Hno).
Qed.

Lemma Part001_sections_without_items_are_skipped_witness :
  Part001.skills (VObj [("grading_result", VObj [("tips", VArr [])]);
                        ("parsed_data", VObj [("skills", VArr [])])])
    = Returns (NVal (VBool false)) /\
  Part001.education (VObj [("grading_result", VObj [("tips", VArr [])]);
                           ("parsed_data", VObj [("skills", VArr [])])])
    = Returns (NVal VUndefined) /\
  Part001.tips (VObj [("grading_result", VObj [("tips", VArr [])]);
                      ("parsed_data", VObj [("skills", VArr [])])])
    = Returns (NVal (VBool false)).
Proof.
  pose proof (Part001_sections_without_items_are_skipped
                (VObj [("grading_result", VObj [("tips", VArr [])]);
                       ("parsed_data", VObj [("skills", VArr [])])])
                (VObj [("skills", VArr [])]) (VObj [("tips", VArr [])])
                eq_refl eq_refl) as [Hedu [_ [Hskills [_ [_ Htips]]]]].
  split; [|split].
  - apply (Hskills (VArr [])); reflexivity.
  - apply (Hedu VUndefined); reflexivity.
  - apply (Htips (VArr [])); reflexivity.
Defined.

Lemma guard_nonempty_passes
  (x len : result value) (body : result node) (v : value) (n : Z) :
  x = Returns v ->
  truthy v = true ->
  len = Returns (VNum n) ->
  0 < n ->
  guard_nonempty x len body = body.
Proof.
  intros -> Ht -> Hn. unfold guard_nonempty, and_then. cbn [bind gt_zero].
  rewrite Ht. destruct (Z.ltb_spec 0 n); [reflexivity | lia].
Qed.

Lemma length_positive {A : Type} (l : list A) :
  l <> [] -> 0 < Z.of_nat (List.length l).
Proof. destruct l; [congruence | simpl; lia]. Qed.

Lemma string_length_positive (s : string) :
  s <> ""%string -> 0 < Z.of_nat (String.length s).
Proof. destruct s; [congruence | simpl; lia]. Qed.

Lemma truthy_nonempty_string (s : string) :
  s <> ""%string -> truthy (VStr s) = true.
Proof.
  intros H. simpl. destruct (String.eqb_spec s ""); [contradiction | reflexivity].
Qed.

Lemma map_indexed_li (l : list value) (n : nat) :
  map_indexed
    (fun x i => el (Host "li") [("key", AVal (VNum i))] [val (Returns x)])
    (Z.of_nat n) l
  = Returns
      (map (fun entry : nat * value =>
              NElem (Host "li") [("key", AVal (VNum (Z.of_nat (fst entry))))]
                    [NVal (snd entry)])
           (combine (seq n (List.length l)) l)).
Proof.
  revert n. induction l as [|x rest IH]; intros n.
  - reflexivity.
  - cbn [map_indexed List.length seq combine map fst snd].
    replace (Z.of_nat n + 1) with (Z.of_nat (S n)) by lia.
    rewrite IH. reflexivity.
Qed.

Lemma li_items_of_array (what : string) (items : list value) :
  Part001.li_items what (VArr items) = Returns (item_list items).
Proof.
  unfold Part001.li_items, array_map, item_list.
  pose proof (map_indexed_li items 0) as H. change (Z.of_nat 0) with 0 in H.
  rewrite H. reflexivity.
Qed.

(** X6.  The skills, strengths and tips sections of [part_001], given a
    non-empty array, render their heading and one [li] per item, in order,
    keyed by the item's index. *)
Theorem Part001_plain_lists_show_every_item (response parsed grading : value) :
  get response "parsed_data" = Returns parsed ->
  get response "grading_result" = Returns grading ->
  let section (title : string) (items : list value) : result node :=
    Returns (NElem (Host "div") [] [
               NElem (Host "h3") [] [NVal (VStr title)];
               NElem (Host "ul") [] [item_list items] ]) in
  (forall items, get parsed "skills" = Returns (VArr items) -> items <> [] ->
                 Part001.skills response = section "Skills" items) /\
  (forall items, get grading "strengths" = Returns (VArr items) -> items <> [] ->
                 Part001.strengths response = section "Strengths" items) /\
  (forall items, get grading "tips" = Returns (VArr items) -> items <> [] ->
                 Part001.tips response = section "Resume Improvement Tips" items).
Proof.
  intros Hp Hg section. unfold section.
  split; [|split]; intros items Hitems Hne.
  - unfold Part001.skills.
    rewrite (guard_nonempty_passes _ _ _ (VArr items) (Z.of_nat (List.length items))).
    + rewrite (path_two _ _ _ _ Hp), Hitems. cbn [bind].
      rewrite li_items_of_array. reflexivity.
    + rewrite Hp. cbn [bind]. apply get_opt_get, Hitems.
    + reflexivity.
    + rewrite (path_three _ _ _ _ _ _ Hp Hitems). reflexivity.
    + apply length_positive, Hne.
  - unfold Part001.strengths.
    rewrite (guard_nonempty_passes _ _ _ (VArr items) (Z.of_nat (List.length items))).
    + rewrite (path_two _ _ _ _ Hg), Hitems. cbn [bind].
      rewrite li_items_of_array. reflexivity.
    + rewrite (path_two _ _ _ _ Hg). exact Hitems.
    + reflexivity.
    + rewrite (path_three _ _ _ _ _ _ Hg Hitems). reflexivity.
    + apply length_positive, Hne.
  - unfold Part001.tips.
    rewrite (guard_nonempty_passes _ _ _ (VArr items) (Z.of_nat (List.length items))).
    + rewrite (path_two _ _ _ _ Hg), Hitems. cbn [bind].
      rewrite li_items_of_array. reflexivity.
    + rewrite (path_two _ _ _ _ Hg). exact Hitems.
    + reflexivity.
    + rewrite (path_three _ _ _ _ _ _ Hg Hitems). reflexivity.
    + apply length_positive, Hne.
Qed.

Lemma Part001_plain_lists_show_every_item_witness :
  Part001.skills full_response
  = Returns (NElem (Host "div") [] [
               NElem (Host "h3") [] [NVal (VStr "Skills")];
               NElem (Host "ul") [] [
                 NArr [NElem (Host "li") [("key", AVal (VNum 0))] [NVal (VStr "Mathematics")];
                       NElem (Host "li") [("key", AVal (VNum 1))] [NVal (VStr "Programming")]] ] ]).
Proof.
  pose proof (Part001_plain_lists_show_every_item full_response
                full_parsed_data full_grading_result
    eq_refl eq_refl) as [Hskills _].
  apply (Hskills [VStr "Mathematics"; VStr "Programming"]).
  - reflexivity.
  - discriminate.
Defined.

(** X7.  A list field of [part_001] that holds a non-empty string passes
    the guard, since a string is truthy and has a positive [length], and
    the section then throws: a string has no [map]. *)
Theorem Part001_string_in_list_field_throws (response parsed grading : value) (s : string) :
  get response "parsed_data" = Returns parsed ->
  get response "grading_result" = Returns grading ->
  s <> ""%string ->
  (get parsed "education" = Returns (VStr s) ->
   Part001.education response
   = Throws (not_a_function "response.parsed_data.education.map")) /\
  (get parsed "experience" = Returns (VStr s) ->
   Part001.experience response
   = Throws (not_a_function "response.parsed_data.experience.map")) /\
  (get parsed "skills" = Returns (VStr s) ->
   Part001.skills response
   = Throws (not_a_function "response.parsed_data.skills.map")) /\
  (get parsed "projects" = Returns (VStr s) ->
   Part001.projects response
   = Throws (not_a_function "response.parsed_data.projects.map")) /\
  (get grading "strengths" = Returns (VStr s) ->
   Part001.strengths response
   = Throws (not_a_function "response.grading_result.strengths.map")) /\
  (get grading "tips" = Returns (VStr s) ->
   Part001.tips response
   = Throws (not_a_function "response.grading_result.tips.map")).
Proof.
  intros Hp Hg Hs.
  pose proof (truthy_nonempty_string s Hs) as Ht.
  pose proof (string_length_positive s Hs) as Hlen.
  repeat split; intros Hfield;
    [ unfold Part001.education | unfold Part001.experience | unfold Part001.skills
    | unfold Part001.projects | unfold Part001.strengths | unfold Part001.tips ];
    rewrite (guard_nonempty_passes _ _ _ (VStr s) (Z.of_nat (String.length s)));
    try exact Ht; try exact Hlen;
    try (rewrite (path_two _ _ _ _ Hp), Hfield; reflexivity);
    try (rewrite (path_two _ _ _ _ Hg), Hfield; reflexivity);
    try (rewrite (path_two _ _ _ _ Hg); exact Hfield);
    try (rewrite Hp; cbn [bind]; apply get_opt_get, Hfield);
    try (rewrite (path_three _ _ _ _ _ _ Hp Hfield); reflexivity);
    try (rewrite (path_three _ _ _ _ _ _ Hg Hfield); reflexivity).
Qed.

Lemma Part001_string_in_list_field_throws_witness :
  Part001.skills (VObj [("grading_result", VObj [("overall_score", VNum 50)]);
                        ("parsed_data", VObj [("skills", VStr "Rocq, OCaml")])])
  = Throws (not_a_function "response.parsed_data.skills.map").
Proof.
  pose proof (Part001_string_in_list_field_throws
                (VObj [("grading_result", VObj [("overall_score", VNum 50)]);
                       ("parsed_data", VObj [("skills", VStr "Rocq, OCaml")])])
                (VObj [("skills", VStr "Rocq, OCaml")])
                (VObj [("overall_score", VNum 50)])
                "Rocq, OCaml" eq_refl eq_refl) as H.
  assert (Hne : "Rocq, OCaml"%string <> ""%string) by discriminate.
  destruct (H Hne) as [_ [_ [Hskills _]]].
  apply Hskills. reflexivity.
Defined.

(* ===================================================================== *)
(** ** The result panel of [App.jsx] *)
(* ===================================================================== *)

(** X8.  For a truthy response whose [tips] is an array, [App.jsx] renders
    the score line and one [li] per tip, keyed by index; the list may be
    empty, and a missing [score] leaves [undefined] in the line. *)
Theorem AppJsx_panel_lists_the_tips (response score : value) (items : list value) :
  truthy response = true ->
  get response "score" = Returns score ->
  get response "tips" = Returns (VArr items) ->
  AppJsx.result_panel response =
  Returns (NElem (Host "div") [] [
             NElem (Host "h2") [] [NVal (VStr "Score: "); NVal score; NVal (VStr "/100")];
             NElem (Host "ul") [] [item_list items] ]).
Proof.
  intros Ht Hscore Htips. unfold AppJsx.result_panel, and_then.
  rewrite Ht, Hscore, Htips. cbn [bind].
  pose proof (li_items_of_array "response.tips.map" items) as H.
  unfold Part001.li_items in H. rewrite H. reflexivity.
Qed.

Lemma AppJsx_panel_lists_the_tips_witness :
  AppJsx.result_panel score_and_tips =
  Returns (NElem (Host "div") [] [
             NElem (Host "h2") [] [NVal (VStr "Score: "); NVal (VNum 64); NVal (VStr "/100")];
             NElem (Host "ul") [] [
               NArr [NElem (Host "li") [("key", AVal (VNum 0))] [NVal (VStr "Shorten it")];
                     NElem (Host "li") [("key", AVal (VNum 1))] [NVal (VStr "Add dates")]] ] ]).
Proof.
  apply (AppJsx_panel_lists_the_tips score_and_tips (VNum 64)
           [VStr "Shorten it"; VStr "Add dates"]); reflexivity.
Defined.

(** X9.  For a truthy response whose [tips] is anything but an array,
    [App.jsx] throws a [TypeError] while rendering: reading [map] of
    [undefined] or [null], or calling a [map] that is not a function. *)
Theorem AppJsx_panel_throws_without_tips (response tips : value) :
  truthy response = true ->
  get response "tips" = Returns tips ->
  (forall items, tips <> VArr items) ->
  AppJsx.result_panel response =
  Throws (if nullish tips then cannot_read tips "map"
          else not_a_function "response.tips.map").
Proof.
  intros Ht Htips Hnot. unfold AppJsx.result_panel, and_then. rewrite Ht.
  destruct (get_returns response "score" (truthy_not_nullish _ Ht)) as [score Hscore].
  rewrite Hscore, Htips. cbn [bind].
  destruct tips; try reflexivity.
  exfalso. apply (Hnot items). reflexivity.
Qed.

Lemma AppJsx_panel_throws_without_tips_witness :
  AppJsx.result_panel network_error
  = Throws (TypeError "Cannot read properties of undefined (reading 'map')").
Proof.
  apply (AppJsx_panel_throws_without_tips network_error VUndefined).
  - reflexivity.
  - reflexivity.
  - discriminate.
Defined.

(* ===================================================================== *)
(** ** Entries of the education, experience and projects arrays *)
(* ===================================================================== *)

Lemma map_indexed_returns (f : value -> Z -> result node) (l : list value) :
  (forall x i, In x l -> returns (f x i)) ->
  forall i, returns (map_indexed f i l).
Proof.
  induction l as [|x rest IH]; intros Hf i; simpl.
  - eexists. reflexivity.
  - destruct (Hf x i (or_introl eq_refl)) as [n ->]. cbn [bind].
    destruct (IH (fun y j Hy => Hf y j (or_intror Hy)) (i + 1)) as [others ->].
    eexists. reflexivity.
Qed.

(** The first [null] or [undefined] entry stops the map with what the
    callback throws on it. *)
Lemma map_indexed_throws
  (f : value -> Z -> result node) (T : value -> thrown) (l : list value) :
  (forall x i, nullish x = false -> returns (f x i)) ->
  (forall x i, nullish x = true -> f x i = Throws (T x)) ->
  existsb nullish l = true ->
  forall i, exists v,
    In v l /\ nullish v = true /\ map_indexed f i l = Throws (T v).
Proof.
  intros Hgood Hbad. induction l as [|x rest IH]; intros Hex i; simpl in Hex;
    [discriminate|].
  destruct (nullish x) eqn:Hx.
  - exists x. simpl. rewrite (Hbad x i Hx). auto.
  - simpl in Hex. destruct (Hgood x i Hx) as [n Hn].
    destruct (IH Hex (i + 1)) as [v [Hin [Hv Heq]]].
    exists v. simpl. rewrite Hn, Heq. auto.
Qed.

Lemma bind_eq_Returns {A B : Type} (r : result A) (k : A -> result B) (b : B) :
  bind r k = Returns b -> exists a, r = Returns a /\ k a = Returns b.
Proof.
  destruct r as [a| |]; simpl; intros H; try discriminate.
  exists a. split; [reflexivity | exact H].
Qed.

Lemma map_indexed_not_returns (f : value -> Z -> result node) (l : list value) :
  (forall x i, nullish x = true -> ~ returns (f x i)) ->
  existsb nullish l = true ->
  forall i, ~ returns (map_indexed f i l).
Proof.
  intros Hbad. induction l as [|x rest IH]; intros Hex i [ns Hret]; simpl in Hex;
    [discriminate|].
  simpl in Hret.
  destruct (bind_eq_Returns _ _ _ Hret) as [n [Hn Hrest]].
  destruct (bind_eq_Returns _ _ _ Hrest) as [others [Hothers _]].
  destruct (nullish x) eqn:Hx.
  - apply (Hbad x i Hx). exists n. exact Hn.
  - simpl in Hex. apply (IH Hex (i + 1)). exists others. exact Hothers.
Qed.

Lemma education_entry_returns (edu : value) (index : Z) :
  nullish edu = false -> returns (Part001.education_entry edu index).
Proof.
  intros Hn. unfold Part001.education_entry.
  pose proof (fun k => get_returns edu k Hn) as Hk.
  repeat returns_step; auto.
  apply returns_bind; [apply Hk|]. intros g _.
  apply returns_and_then. intros _. repeat returns_step; auto.
Qed.

Lemma education_entry_of_null (edu : value) (index : Z) :
  nullish edu = true ->
  Part001.education_entry edu index = Throws (cannot_read edu "institution").
Proof. destruct edu; simpl; intros H; try discriminate; reflexivity. Qed.

Lemma education_entry_mounts (edu : value) (index : Z) :
  properties_mountable edu = true -> mounts (Part001.education_entry edu index).
Proof.
  intros Hedu. unfold Part001.education_entry.
  pose proof (fun k v => get_mountable edu v k Hedu) as Hread.
  repeat mounts_step;
    try (apply mounts_val; apply Hread).
  apply mounts_bind. intros g _. repeat mounts_step.
  apply mounts_val. apply Hread.
Qed.

(** X10.  Given a non-empty [education] array, evaluating the education
    section of [part_001] throws exactly when an entry is [null] or
    [undefined]: the [TypeError] of reading [institution] from the first
    such entry.  Otherwise [App] returns the section, and the tree holds no
    plain object in child position, which React would refuse, when no
    entry has an object among its properties. *)
Theorem Part001_education_needs_objects (response parsed : value) (items : list value) :
  get response "parsed_data" = Returns parsed ->
  get parsed "education" = Returns (VArr items) ->
  items <> [] ->
  if existsb nullish items
  then exists v, In v items /\ nullish v = true /\
                 Part001.education response = Throws (cannot_read v "institution")
  else exists tree,
         Part001.education response = Returns tree /\
         (forallb properties_mountable items = true -> mountable tree = true).
Proof.
  intros Hp He Hne. unfold Part001.education.
  rewrite (guard_nonempty_passes _ _ _ (VArr items) (Z.of_nat (List.length items)));
    [ | rewrite Hp; cbn [bind]; apply get_opt_get, He | reflexivity
      | rewrite (path_three _ _ _ _ _ _ Hp He); reflexivity
      | apply length_positive, Hne ].
  rewrite (path_two _ _ _ _ Hp), He. cbn [bind array_map].
  destruct (existsb nullish items) eqn:Hex.
  - destruct (map_indexed_throws Part001.education_entry
                (fun v => cannot_read v "institution") items
                education_entry_returns education_entry_of_null Hex 0)
      as [v [Hin [Hv Heq]]].
    exists v. repeat split; auto. unfold el. cbn [sequence txt bind].
    rewrite Heq. reflexivity.
  - assert (Hall : forall x i, In x items -> returns (Part001.education_entry x i)).
    { intros x i Hin. apply education_entry_returns.
      destruct (nullish x) eqn:Hx; [|reflexivity].
      assert (existsb nullish items = true) by (apply existsb_exists; eauto).
      congruence. }
    destruct (map_indexed_returns _ _ Hall 0) as [ns Hns].
    unfold el. cbn [sequence txt bind]. rewrite Hns. cbn [bind].
    eexists. split; [reflexivity|].
    intros Hitems. cbn [mountable forallb value_mountable andb].
    rewrite andb_true_r.
    apply (map_indexed_mounts Part001.education_entry items) with (i := 0);
      [|exact Hns].
    intros x i Hin. apply education_entry_mounts.
    rewrite forallb_forall in Hitems. exact (Hitems x Hin).
Qed.

Lemma Part001_education_needs_objects_witness :
  exists v, In v [VObj [("institution", VStr "MIT")]; VNull] /\ nullish v = true /\
    Part001.education
      (VObj [("parsed_data",
              VObj [("education", VArr [VObj [("institution", VStr "MIT")]; VNull])])])
    = Throws (cannot_read v "institution").
Proof.
  apply (Part001_education_needs_objects
           (VObj [("parsed_data",
                   VObj [("education", VArr [VObj [("institution", VStr "MIT")]; VNull])])])
           (VObj [("education", VArr [VObj [("institution", VStr "MIT")]; VNull])])
           [VObj [("institution", VStr "MIT")]; VNull]).
  - reflexivity.
  - reflexivity.
  - discriminate.
Defined.

(** X11.  A [null] or [undefined] entry anywhere in a non-empty
    [experience] or [projects] array makes that section of [part_001]
    fail to render. *)
Theorem Part001_null_entry_breaks_section (response parsed : value) (items : list value) :
  get response "parsed_data" = Returns parsed ->
  existsb nullish items = true ->
  (get parsed "experience" = Returns (VArr items) ->
   ~ returns (Part001.experience response)) /\
  (get parsed "projects" = Returns (VArr items) ->
   ~ returns (Part001.projects response)).
Proof.
  intros Hp Hex.
  assert (Hne : items <> []) by (intros ->; discriminate).
  split; intros Hfield;
    [unfold Part001.experience | unfold Part001.projects];
    (rewrite (guard_nonempty_passes _ _ _ (VArr items) (Z.of_nat (List.length items)));
     [ | rewrite Hp; cbn [bind]; apply get_opt_get, Hfield | reflexivity
       | rewrite (path_three _ _ _ _ _ _ Hp Hfield); reflexivity
       | apply length_positive, Hne ]);
    rewrite (path_two _ _ _ _ Hp), Hfield; cbn [bind array_map];
    unfold el; cbn [sequence txt bind]; intros [tree Hret];
    destruct (bind_eq_Returns _ _ _ Hret) as [kids [Hkids _]];
    destruct (bind_eq_Returns _ _ _ Hkids) as [others [Hothers _]];
    destruct (bind_eq_Returns _ _ _ Hothers) as [arr [Harr _]];
    destruct (bind_eq_Returns _ _ _ Harr) as [ns [Hns _]];
    revert Hns.
  - intros Hns.
    apply (map_indexed_not_returns Part001.experience_entry items) with (i := 0);
      [ | exact Hex | exists ns; exact Hns ].
    intros x i Hx [n Hn]. destruct x; simpl in Hx, Hn; discriminate.
  - intros Hns.
    apply (map_indexed_not_returns Part001.project_entry items) with (i := 0);
      [ | exact Hex | exists ns; exact Hns ].
    intros x i Hx [n Hn]. destruct x; simpl in Hx, Hn; discriminate.
Qed.

Lemma Part001_null_entry_breaks_section_witness :
  ~ returns (Part001.projects
               (VObj [("parsed_data", VObj [("projects", VArr [VNull])])])).
Proof.
  destruct (Part001_null_entry_breaks_section
              (VObj [("parsed_data", VObj [("projects", VArr [VNull])])])
              (VObj [("projects", VArr [VNull])]) [VNull] eq_refl eq_refl)
    as [_ Hprojects].
  apply Hprojects. reflexivity.
Defined.

(* ===================================================================== *)
(** ** A project and the personal information, field by field *)
(* ===================================================================== *)

Lemma get_object (fields : list (string * value)) (k : string) :
  get (VObj fields) k = Returns (field fields k).
Proof. unfold field. simpl. destruct (own_property k fields); reflexivity. Qed.

(** Joining strings is [String.concat]. *)
Lemma join_strings (sep : string) (names : list string) :
  join_with to_string sep (map VStr names) = Returns (String.concat sep names).
Proof.
  induction names as [|x rest IH]; [reflexivity|].
  destruct rest as [|y rest']; [reflexivity|].
  change (join_with to_string sep (map VStr (x :: y :: rest')))
    with (let* r := join_with to_string sep (map VStr (y :: rest')) in
          Returns (x ++ sep ++ r)%string).
  rewrite IH. reflexivity.
Qed.

(** X12.  A project object whose [technologies] is a non-empty array of
    strings renders its name, its description, the technologies joined by
    a comma and a space, and the duration line and the link only when
    [duration] and [url] are truthy; a missing name or description leaves
    [undefined] in its line. *)
Theorem Part001_project_entry_of_object
  (fields : list (string * value)) (names : list string) (index : Z) :
  own_property "technologies" fields = Some (VArr (map VStr names)) ->
  names <> [] ->
  Part001.project_entry (VObj fields) index =
  Returns
    (NElem (Host "div") [("key", AVal (VNum index))] [
       NElem (Host "h4") [] [NVal (field fields "name")];
       NElem (Host "p") [] [NVal (field fields "description")];
       NElem (Host "p") [] [
         NElem (Host "strong") [] [NVal (VStr "Technologies:")]; NVal (VStr " ");
         NVal (VStr (String.concat ", " names)) ];
       (if truthy (field fields "duration")
        then NElem (Host "p") [] [
               NElem (Host "strong") [] [NVal (VStr "Duration:")]; NVal (VStr " ");
               NVal (field fields "duration") ]
        else NVal (field fields "duration"));
       (if truthy (field fields "url")
        then NElem (Host "a")
               [("href", AVal (field fields "url")); ("target", str "_blank");
                ("rel", str "noopener noreferrer")]
               [NVal (VStr "Project Link")]
        else NVal (field fields "url")) ]).
Proof.
  intros Htech Hne.
  assert (Hget : get (VObj fields) "technologies" = Returns (VArr (map VStr names))).
  { rewrite get_object. unfold field. rewrite Htech. reflexivity. }
  unfold Part001.project_entry.
  rewrite (guard_nonempty_passes _ _ _ (VArr (map VStr names))
             (Z.of_nat (List.length (map VStr names))));
    [ | exact Hget | reflexivity | rewrite (path_two _ _ _ _ Hget); reflexivity
      | apply length_positive; destruct names; [congruence | discriminate] ].
  rewrite Hget. cbn [bind array_join]. rewrite join_strings.
  rewrite (get_object fields "name"), (get_object fields "description"),
    (get_object fields "duration"), (get_object fields "url").
  cbn [bind]. unfold and_then.
  destruct (truthy (field fields "duration")), (truthy (field fields "url"));
    reflexivity.
Qed.

Lemma Part001_project_entry_of_object_witness :
  Part001.project_entry
    (VObj [("name", VStr "Bernoulli numbers");
           ("technologies", VArr [VStr "Punched cards"; VStr "Gears"])]) 0
  = Returns
      (NElem (Host "div") [("key", AVal (VNum 0))] [
         NElem (Host "h4") [] [NVal (VStr "Bernoulli numbers")];
         NElem (Host "p") [] [NVal VUndefined];
         NElem (Host "p") [] [
           NElem (Host "strong") [] [NVal (VStr "Technologies:")]; NVal (VStr " ");
           NVal (VStr "Punched cards, Gears") ];
         NVal VUndefined;
         NVal VUndefined ]).
Proof.
  apply (Part001_project_entry_of_object
           [("name", VStr "Bernoulli numbers");
            ("technologies", VArr [VStr "Punched cards"; VStr "Gears"])]
           ["Punched cards"%string; "Gears"%string] 0).
  - reflexivity.
  - discriminate.
Defined.

(** X13.  When [personal_info] is an object, the personal information
    block of [part_001] always has the Name, Email and Phone lines, a
    missing field leaving [undefined] after the label, and has the
    Address, LinkedIn and GitHub lines only for truthy fields. *)
Theorem Part001_personal_information_lines
  (response parsed : value) (fields : list (string * value)) :
  get response "parsed_data" = Returns parsed ->
  get parsed "personal_info" = Returns (VObj fields) ->
  Part001.personal_information response =
  let line (label k : string) : node :=
    NElem (Host "p") [] [NVal (VStr label); NVal (field fields k)] in
  let optional (label k : string) : node :=
    if truthy (field fields k) then line label k else NVal (field fields k) in
  Returns
    (NElem (Host "div") [] [
       NElem (Host "h3") [] [NVal (VStr "Personal Information")];
       line "Name: " "name"; line "Email: " "email"; line "Phone: " "phone";
       optional "Address: " "address"; optional "LinkedIn: " "linkedin";
       optional "GitHub: " "github" ]).
Proof.
  intros Hp Hi.
  rewrite (personal_information_of response parsed (VObj fields) Hp Hi eq_refl).
  cbv beta zeta.
  rewrite (get_object fields "name"), (get_object fields "email"),
    (get_object fields "phone"), (get_object fields "address"),
    (get_object fields "linkedin"), (get_object fields "github").
  cbn [bind]. unfold and_then.
  destruct (truthy (field fields "address")), (truthy (field fields "linkedin")),
    (truthy (field fields "github")); reflexivity.
Qed.

Lemma Part001_personal_information_lines_witness :
  Part001.personal_information full_response =
  Returns
    (NElem (Host "div") [] [
       NElem (Host "h3") [] [NVal (VStr "Personal Information")];
       NElem (Host "p") [] [NVal (VStr "Name: "); NVal (VStr "Ada Lovelace")];
       NElem (Host "p") [] [NVal (VStr "Email: "); NVal (VStr "ada@example.org")];
       NElem (Host "p") [] [NVal (VStr "Phone: "); NVal (VStr "555-0100")];
       NVal VUndefined;
       NVal VUndefined;
       NElem (Host "p") [] [NVal (VStr "GitHub: "); NVal (VStr "github.com/ada")] ]).
Proof.
  apply (Part001_personal_information_lines full_response
           full_parsed_data
           [("name", VStr "Ada Lovelace"); ("email", VStr "ada@example.org");
            ("phone", VStr "555-0100"); ("github", VStr "github.com/ada")]).
  - reflexivity.
  - reflexivity.
Defined.

(* ===================================================================== *)
(** ** A response without list items *)
(* ===================================================================== *)

Lemma fixed_parts_have_no_list (response : value) :
  tag_free "ul" (Part001.overall response) /\
  tag_free "ul" (Part001.personal_information response) /\
  tag_free "ul" (Part001.detailed_feedback response).
Proof.
  unfold Part001.overall, Part001.personal_information, Part001.detailed_feedback,
    Part001.section_score.
  repeat split; tag_free.
Qed.

(** X14.  For every response that passes the guard of [part_001] and
    whose six list fields are all missing, falsy or empty, evaluating the
    panel does not throw: [App] returns a panel, and it has no list.  That
    panel holds no plain object in child position, which React would
    refuse, when the values it shows ([overall_score], [detailed_feedback],
    the properties of [section_scores] and of [personal_info]) are not
    objects. *)
Theorem Part001_panel_without_list_items (response parsed grading : value) :
  truthy response = true ->
  get response "grading_result" = Returns grading ->
  truthy grading = true ->
  get response "parsed_data" = Returns parsed ->
  (forall k, In k ["education"; "experience"; "skills"; "projects"]%string ->
             exists v, opt_get parsed k = Returns v /\ no_items v = true) ->
  (forall k, In k ["strengths"; "tips"]%string ->
             exists v, get grading k = Returns v /\ no_items v = true) ->
  exists panel,
    Part001.result_panel response = Returns panel /\
    elements_by_tag "ul" panel = [] /\
    (fixed_values_mountable response = true -> mountable panel = true).
Proof.
  intros Hr Hg Ht Hp Hparsed Hgrading.
  pose proof (truthy_not_nullish _ Hr) as Hrn.
  pose proof (truthy_not_nullish _ Ht) as Hgn.
  destruct (Hparsed "education"%string) as [v1 [H1 N1]]; [simpl; tauto|].
  destruct (Hparsed "experience"%string) as [v2 [H2 N2]]; [simpl; tauto|].
  destruct (Hparsed "skills"%string) as [v3 [H3 N3]]; [simpl; tauto|].
  destruct (Hparsed "projects"%string) as [v4 [H4 N4]]; [simpl; tauto|].
  destruct (Hgrading "strengths"%string) as [v5 [H5 N5]]; [simpl; tauto|].
  destruct (Hgrading "tips"%string) as [v6 [H6 N6]]; [simpl; tauto|].
  assert (E1 : Part001.education response = Returns (NVal (if truthy v1 then VBool false else v1)))
    by (apply (parsed_list_skipped response parsed v1 "education"); assumption).
  assert (E2 : Part001.experience response = Returns (NVal (if truthy v2 then VBool false else v2)))
    by (apply (parsed_list_skipped response parsed v2 "experience"); assumption).
  assert (E3 : Part001.skills response = Returns (NVal (if truthy v3 then VBool false else v3)))
    by (apply (parsed_list_skipped response parsed v3 "skills"); assumption).
  assert (E4 : Part001.projects response = Returns (NVal (if truthy v4 then VBool false else v4)))
    by (apply (parsed_list_skipped response parsed v4 "projects"); assumption).
  assert (E5 : Part001.strengths response = Returns (NVal (if truthy v5 then VBool false else v5)))
    by (apply (grading_list_skipped response grading v5 "strengths"); assumption).
  assert (E6 : Part001.tips response = Returns (NVal (if truthy v6 then VBool false else v6)))
    by (apply (grading_list_skipped response grading v6 "tips"); assumption).
  destruct (fixed_parts_have_no_list response) as [Fo [Fp Ff]].
  destruct (overall_returns response grading Hg Hgn) as [o Ho].
  destruct (personal_information_returns response Hrn) as [p Hpi].
  destruct (detailed_feedback_returns response grading Hg Hgn) as [f Hf].
  unfold Part001.result_panel, and_then. rewrite Hr, Hg. cbn [bind]. rewrite Ht.
  rewrite Ho, Hpi, Hf, E1, E2, E3, E4, E5, E6.
  eexists. split; [reflexivity|]. split.
  - cbn [elements_by_tag flat_map String.eqb Ascii.eqb Bool.eqb app].
    rewrite (Fo o Ho), (Fp p Hpi), (Ff f Hf). reflexivity.
  - intros Hfix.
    destruct (fixed_values_reads response grading Hg Hfix) as [M1 [M2 [M3 M4]]].
    cbn [mountable forallb].
    rewrite (overall_mounts response grading Hg M1 M3 o Ho).
    rewrite (personal_information_mounts response M4 p Hpi).
    rewrite (detailed_feedback_mounts response grading Hg M2 f Hf).
    rewrite !skipped_mountable. reflexivity.
Qed.

Lemma Part001_panel_without_list_items_witness :
  exists panel,
    Part001.result_panel only_overall_score = Returns panel /\
    elements_by_tag "ul" panel = [] /\
    (fixed_values_mountable only_overall_score = true -> mountable panel = true).
Proof.
  apply (Part001_panel_without_list_items only_overall_score VUndefined
           (VObj [("overall_score", VNum 72)])); try reflexivity.
  - intros k _. exists VUndefined. split; reflexivity.
  - intros k Hk. exists VUndefined. split; [|reflexivity].
    simpl in Hk. destruct Hk as [<- | [<- | []]]; reflexivity.
Defined.

(* ===================================================================== *)
(** ** What the handlers do from any state *)
(* ===================================================================== *)

(** X15.  [handleUpload] checks neither [files] nor [loading]: from any
    state and however the request settles, every revision sends exactly
    one POST to its endpoint, whose body is one field holding the current
    selection as [FormData] takes it (a file part for a [File], the string
    form of anything else), and leaves [files] as it was. *)
Theorem submit_sends_the_current_selection
  (r : revision) (url : string) (net : settled) (w : World) :
  let w' := world_after (submit r url net w) in
  requests w' =
    (requests w ++
     [mkRequest "POST"
        (match r with
         | App_jsx => "http://localhost:3000/uploads"
         | part_000 => "http://localhost:8000/upload-resume"
         | part_001 => url ++ "/grade-resume"
         end)
        [(match r with App_jsx => "resume" | part_000 | part_001 => "file" end,
          entry_of (files (st w)))]])%list /\
  files (st w') = files (st w).
Proof.
  destruct r, net; split; reflexivity.
Qed.

(** X16.  In [part_000], whose button is never disabled, closing the file
    picker without a file and clicking Upload sends the string
    ["undefined"] as the [file] field. *)
Theorem Part000_cancelled_pick_uploads_undefined (net : settled) (w : World) :
  requests (world_after ((selectFile part_000 [] ;; submit part_000 "" net)%handler w)) =
    (requests w ++
     [mkRequest "POST" "http://localhost:8000/upload-resume"
        [("file", EString "undefined")]])%list.
Proof. destruct net; reflexivity. Qed.

(** X17.  In [part_001], after the file input changes, the submit control
    is disabled when the input holds no file, and otherwise exactly while
    [loading] is true. *)
Theorem Part001_pick_sets_the_submit_control
  (picked : FileList) (w : World) (tree : node) :
  render part_001 (st (world_after (selectFile part_001 picked w))) = Returns tree ->
  submit_disabled tree =
  Some (match picked with
        | [] => true
        | _ :: _ => loading (st w)
        end).
Proof.
  intros H. unfold submit_disabled. simpl in H. unfold Part001.App in H.
  rewrite (frame_has_one_button _ _ _ _ (Part001_panel_has_no_button _) H).
  destruct picked; simpl; [reflexivity|].
  destruct (loading (st w)); reflexivity.
Qed.

Lemma Part001_pick_sets_the_submit_control_witness :
  exists tree,
    render part_001 (st (world_after (selectFile part_001 [resume_pdf] (world_of initial_state))))
      = Returns tree /\
    submit_disabled tree = Some false.
Proof.
  eexists. split.
  - reflexivity.
  - apply (Part001_pick_sets_the_submit_control [resume_pdf] (world_of initial_state)).
    reflexivity.
Defined.

(** X18.  In [part_000] a failed upload breaks the page: the rejection
    reason, an object without [parsed_data], becomes the response, and the
    next render throws a [TypeError]. *)
Theorem Part000_failed_upload_breaks_the_render
  (url : string) (reason parsed : value) (w : World) :
  truthy reason = true ->
  get reason "parsed_data" = Returns parsed ->
  nullish parsed = true ->
  exists w',
    submit part_000 url (Rejected reason) w = Normal tt w' /\
    render part_000 (st w') = Throws (cannot_read parsed "personal_info").
Proof.
  intros Ht Hp Hn. eexists. split; [run_handler|].
  simpl. unfold Part000.App, Part000.result_panel, and_then.
  cbn [response]. rewrite Ht. cbn [path]. rewrite Hp. cbn [bind].
  destruct parsed; simpl in Hn; try discriminate; reflexivity.
Qed.

Lemma Part000_failed_upload_breaks_the_render_witness :
  exists w',
    submit part_000 "" (Rejected network_error) (world_of initial_state) = Normal tt w' /\
    render part_000 (st w') = Throws (cannot_read VUndefined "personal_info").
Proof.
  apply (Part000_failed_upload_breaks_the_render "" network_error VUndefined
           (world_of initial_state)); reflexivity.
Defined.

(** X19.  In [part_001] a failed upload brings the view back to the bare
    form: the handler completes normally, the selection is kept, and the
    next render has no spinner and no result panel. *)
Theorem Part001_failed_upload_resets_the_view (url : string) (reason : value) (w : World) :
  exists w',
    submit part_001 url (Rejected reason) w = Normal tt w' /\
    st w' = {| files := files (st w); response := VNull; loading := false |} /\
    render part_001 (st w') =
    Returns
      (NElem Fragment [] [
         NElem (Host "div") [("className", str "App")] [
           NElem (Host "h1") [] [NVal (VStr "Automated Resume Grader")] ];
         NElem (Host "div") [] [
           NElem (Host "input")
             [("type", str "file"); ("accept", str ".pdf");
              ("onChange", AHandler HandleFileChange);
              ("placeholder", str "choose your Resume")] [] ];
         NElem (Host "div") [] [
           NElem (Host "button")
             [("onClick", AHandler HandleUpload);
              ("disabled", AVal (VBool (negb (sel_truthy (files (st w))))))]
             [NVal (VStr "Upload")] ];
         NVal (VBool false);
         NElem (Host "div") [] [NVal VNull] ]).
Proof.
  destruct w as [[selected old_response old_loading] sent logged].
  eexists. split; [run_handler|]. split; [reflexivity|].
  destruct selected; reflexivity.
Qed.

(* ===================================================================== *)
(** ** Education and experience entries, and the panel of [part_000] *)
(* ===================================================================== *)

(** An education entry that is an object renders its institution,
    ["degree in field_of_study"], its year, and a GPA line only when [gpa]
    is truthy; missing fields leave [undefined] in their place. *)
Lemma Part001_education_entry_of_object (fields : list (string * value)) (index : Z) :
  Part001.education_entry (VObj fields) index =
  Returns
    (NElem (Host "div") [("key", AVal (VNum index))] [
       NElem (Host "h4") [] [NVal (field fields "institution")];
       NElem (Host "p") [] [
         NVal (field fields "degree"); NVal (VStr " in ");
         NVal (field fields "field_of_study") ];
       NElem (Host "p") [] [NVal (field fields "year")];
       (if truthy (field fields "gpa")
        then NElem (Host "p") [] [NVal (VStr "GPA: "); NVal (field fields "gpa")]
        else NVal (field fields "gpa")) ]).
Proof.
  unfold Part001.education_entry.
  rewrite (get_object fields "institution"), (get_object fields "degree"),
    (get_object fields "field_of_study"), (get_object fields "year"),
    (get_object fields "gpa").
  cbn [bind]. unfold and_then.
  destruct (truthy (field fields "gpa")); reflexivity.
Qed.

(** X20.  An experience entry that is an object with an array under
    [key_achievements] renders ["position at company"], the duration, the
    description, and the achievements as a list with one [li] per item;
    for the empty array, [false] takes the place of the list. *)
Theorem Part001_experience_entry_of_object
  (fields : list (string * value)) (achievements : list value) (index : Z) :
  own_property "key_achievements" fields = Some (VArr achievements) ->
  Part001.experience_entry (VObj fields) index =
  Returns
    (NElem (Host "div") [("key", AVal (VNum index))] [
       NElem (Host "h4") [] [
         NVal (field fields "position"); NVal (VStr " at ");
         NVal (field fields "company") ];
       NElem (Host "p") [] [NVal (field fields "duration")];
       NElem (Host "p") [] [NVal (field fields "description")];
       (match achievements with
        | [] => NVal (VBool false)
        | _ :: _ =>
            NElem (Host "div") [] [
              NElem (Host "strong") [] [NVal (VStr "Key Achievements:")];
              NElem (Host "ul") [] [item_list achievements] ]
        end) ]).
Proof.
  intros Hown.
  assert (Hget : get (VObj fields) "key_achievements" = Returns (VArr achievements)).
  { rewrite get_object. unfold field. rewrite Hown. reflexivity. }
  unfold Part001.experience_entry.
  rewrite (get_object fields "position"), (get_object fields "company"),
    (get_object fields "duration"), (get_object fields "description").
  destruct achievements as [|a rest].
  - rewrite (guard_nonempty_skips _ _ _ (VArr []) Hget eq_refl).
    + reflexivity.
    + intros _. rewrite (path_two _ _ _ _ Hget). reflexivity.
  - rewrite (guard_nonempty_passes _ _ _ (VArr (a :: rest))
               (Z.of_nat (List.length (a :: rest))) Hget eq_refl).
    + rewrite Hget. cbn [bind]. rewrite li_items_of_array. reflexivity.
    + rewrite (path_two _ _ _ _ Hget). reflexivity.
    + apply length_positive. discriminate.
Qed.

Lemma Part001_experience_entry_of_object_witness :
  Part001.experience_entry
    (VObj [("position", VStr "Analyst"); ("key_achievements", VArr [VStr "Note G"])]) 3
  = Returns
      (NElem (Host "div") [("key", AVal (VNum 3))] [
         NElem (Host "h4") [] [NVal (VStr "Analyst"); NVal (VStr " at "); NVal VUndefined];
         NElem (Host "p") [] [NVal VUndefined];
         NElem (Host "p") [] [NVal VUndefined];
         NElem (Host "div") [] [
           NElem (Host "strong") [] [NVal (VStr "Key Achievements:")];
           NElem (Host "ul") [] [
             NArr [NElem (Host "li") [("key", AVal (VNum 0))] [NVal (VStr "Note G")]] ] ] ]).
Proof.
  apply (Part001_experience_entry_of_object
           [("position", VStr "Analyst"); ("key_achievements", VArr [VStr "Note G"])]
           [VStr "Note G"] 3).
  reflexivity.
Defined.

(** X21.  For a truthy response, evaluating the panel of [part_000]
    throws when [parsed_data] or its [personal_info] is [null] or
    [undefined], the [TypeError] of the read that met the missing value,
    and otherwise returns a tree that shows the name alone.  That tree is
    one React can mount exactly when the name is not a plain object, nor
    an array holding one. *)
Theorem Part000_panel_needs_personal_info (response parsed : value) :
  truthy response = true ->
  get response "parsed_data" = Returns parsed ->
  Part000.result_panel response =
  (if nullish parsed then Throws (cannot_read parsed "personal_info")
   else
     let* info := get parsed "personal_info" in
     if nullish info then Throws (cannot_read info "name")
     else
       let* name := get info "name" in
       Returns (NElem (Host "div") [] [NElem (Host "ul") [] [NVal name]])) /\
  (forall tree,
      Part000.result_panel response = Returns tree ->
      exists name,
        path response ["parsed_data"; "personal_info"; "name"] = Returns name /\
        tree = NElem (Host "div") [] [NElem (Host "ul") [] [NVal name]] /\
        mountable tree = value_mountable name).
Proof.
  intros Ht Hp. split.
  - unfold Part000.result_panel, and_then. rewrite Ht.
    cbn [path]. rewrite Hp. cbn [bind].
    destruct (nullish parsed) eqn:Hn.
    + destruct parsed; simpl in Hn; try discriminate; reflexivity.
    + destruct (get_returns parsed "personal_info" Hn) as [info Hi].
      rewrite Hi. cbn [bind].
      destruct (nullish info) eqn:Hni.
      * destruct info; simpl in Hni; try discriminate; reflexivity.
      * destruct (get_returns info "name" Hni) as [name Hname].
        rewrite Hname. reflexivity.
  - intros tree. unfold Part000.result_panel, and_then. rewrite Ht.
    destruct (path response ["parsed_data"; "personal_info"; "name"])
      as [name| |]; intros H; simpl in H; try discriminate.
    injection H as <-. exists name. repeat split.
    simpl. rewrite !andb_true_r. reflexivity.
Qed.

Lemma Part000_panel_needs_personal_info_witness :
  Part000.result_panel full_response
  = Returns (NElem (Host "div") [] [NElem (Host "ul") [] [NVal (VStr "Ada Lovelace")]]).
Proof.
  destruct (Part000_panel_needs_personal_info full_response full_parsed_data
              eq_refl eq_refl) as [Hpanel _].
  exact Hpanel.
Defined.
